(** * Delivery delay monitor: the workflow loop and its message activity

    A shallow embedding of [monitorDeliveryWorkflow]
    (worker/src/workflows/index.ts) and of the [generateDelayMessage] activity
    (worker/src/activities/index.ts), with the properties of the monitor
    that the design document states about them.

    Numbers.  The workflow only compares and adds delay minutes and counts
    notifications; these are modelled as [Z] (the values a JavaScript
    number takes on this path are integers: [delayMinutes] is produced by
    [Math.max(0, Math.round(..))], the sequence counts up from 0).  The
    argument of the snooze signal may be fractional and is a [Q].

    Suspension.  Every [await] of the workflow is a suspension point.  The
    host runs signal handlers while the workflow is suspended and resumes
    it when the awaited timer fires or the awaited activity settles.  An
    [await] is therefore modelled by the call it issues, the signals
    handled during the suspension and the way the call settles; the
    environment of a loop iteration supplies these for each [await] of the
    body. *)

From Stdlib Require Import ZArith QArith Qround Bool List String Ascii Lia.
From Stdlib Require Import DecimalString DecimalZ DecimalPos FinFun.
From Stdlib Require Import Qminmax.
Import ListNotations.

Local Open Scope string_scope.
Local Open Scope Z_scope.

(** ** Data *)

(** [interface MonitorArgs]. *)
Record MonitorArgs : Type := mkMonitorArgs {
  deliveryId : string;
  origin : string;
  destination : string;
  recipientEmail : string;
  thresholdMinutes : Z;
  notifyDeltaMinutes : Z
}.

(** The five [let] variables of [monitorDeliveryWorkflow]. *)
Record WfState : Type := mkWfState {
  highestNotifiedDelayMinutes : Z;
  notificationSequence : Z;
  hasNotifiedOverThreshold : bool;
  snoozeSleepMs : option Z;
  shouldCheckNow : bool
}.

(** Their initial values. *)
Definition initialState : WfState :=
  {| highestNotifiedDelayMinutes := 0;
     notificationSequence := 0;
     hasNotifiedOverThreshold := false;
     snoozeSleepMs := None;
     shouldCheckNow := false |}.

Definition setHighest (v : Z) (st : WfState) : WfState :=
  {| highestNotifiedDelayMinutes := v;
     notificationSequence := notificationSequence st;
     hasNotifiedOverThreshold := hasNotifiedOverThreshold st;
     snoozeSleepMs := snoozeSleepMs st;
     shouldCheckNow := shouldCheckNow st |}.

Definition setSequence (v : Z) (st : WfState) : WfState :=
  {| highestNotifiedDelayMinutes := highestNotifiedDelayMinutes st;
     notificationSequence := v;
     hasNotifiedOverThreshold := hasNotifiedOverThreshold st;
     snoozeSleepMs := snoozeSleepMs st;
     shouldCheckNow := shouldCheckNow st |}.

Definition setHasNotified (v : bool) (st : WfState) : WfState :=
  {| highestNotifiedDelayMinutes := highestNotifiedDelayMinutes st;
     notificationSequence := notificationSequence st;
     hasNotifiedOverThreshold := v;
     snoozeSleepMs := snoozeSleepMs st;
     shouldCheckNow := shouldCheckNow st |}.

Definition setSnooze (v : option Z) (st : WfState) : WfState :=
  {| highestNotifiedDelayMinutes := highestNotifiedDelayMinutes st;
     notificationSequence := notificationSequence st;
     hasNotifiedOverThreshold := hasNotifiedOverThreshold st;
     snoozeSleepMs := v;
     shouldCheckNow := shouldCheckNow st |}.

Definition setCheckNow (v : bool) (st : WfState) : WfState :=
  {| highestNotifiedDelayMinutes := highestNotifiedDelayMinutes st;
     notificationSequence := notificationSequence st;
     hasNotifiedOverThreshold := hasNotifiedOverThreshold st;
     snoozeSleepMs := snoozeSleepMs st;
     shouldCheckNow := v |}.

(** ** Signals *)

(** [snooze], [routeRestarted] and [checkNow]. *)
Inductive Signal : Type :=
| Snooze (minutes : Q)
| RouteRestarted
| CheckNow.

(** The three handlers attached with [wf.setHandler]. *)
Definition handleSignal (st : WfState) (s : Signal) : WfState :=
  match s with
  | Snooze minutes =>
      let ms := Z.max 0 (Qfloor minutes * 60000) in
      setSnooze (Some ms) st
  | RouteRestarted => setHighest 0 st
  | CheckNow => setCheckNow true st
  end.

(** Handlers run one after the other, in the order of delivery. *)
Definition handleSignals (sigs : list Signal) (st : WfState) : WfState :=
  fold_left handleSignal sigs st.

Definition isRouteRestarted (s : Signal) : bool :=
  match s with RouteRestarted => true | _ => false end.

(** Whether a [routeRestarted] is among the delivered signals. *)
Definition restarted (sigs : list Signal) : bool :=
  existsb isRouteRestarted sigs.

(** ** Calls, suspensions and the workflow monad *)

(** The result of [fetchTrafficConditions]. *)
Record Traffic : Type := mkTraffic {
  plannedSeconds : Z;
  inTrafficSeconds : Z;
  delayMinutes : Z
}.

(** What the workflow asks of its host: timers and the three proxied
    activities, with their arguments. *)
Inductive Event : Type :=
| EvSleep (ms : Z)
| EvFetchTrafficConditions (org dst : string)
| EvGenerateDelayMessage (org dst : string) (delay : Z)
| EvSendNotificationEmail (to subject body idempotencyKey : string).

(** A promise settles with a value or with an error. *)
Inductive Settled (A : Type) : Type :=
| Resolved (a : A)
| Rejected (err : string).
Arguments Resolved {A} a.
Arguments Rejected {A} err.

(** One suspension: the signals handled while the workflow is suspended,
    then how the awaited promise settles. *)
Record Suspension (A : Type) : Type := mkSuspension {
  delivered : list Signal;
  settled : Settled A
}.
Arguments mkSuspension {A} _ _.
Arguments delivered {A} _.
Arguments settled {A} _.

(** How a piece of workflow code ends: normally, or by an exception that
    nothing in the workflow catches. *)
Inductive Outcome (A : Type) : Type :=
| Normal (a : A) (st : WfState)
| Thrown (err : string) (st : WfState).
Arguments Normal {A} a st.
Arguments Thrown {A} err st.

Definition stateOf {A : Type} (o : Outcome A) : WfState :=
  match o with Normal _ st => st | Thrown _ st => st end.

(** Workflow code: from the variables to the calls issued and the outcome. *)
Definition Wf (A : Type) : Type := WfState -> list Event * Outcome A.

Definition ret {A : Type} (a : A) : Wf A :=
  fun st => ([], Normal a st).

Definition bind {A B : Type} (m : Wf A) (k : A -> Wf B) : Wf B :=
  fun st =>
    match m st with
    | (tr, Normal a st1) =>
        let (tr', o) := k a st1 in ((tr ++ tr')%list, o)
    | (tr, Thrown err st1) => (tr, Thrown err st1)
    end.

Declare Scope wf_scope.
Delimit Scope wf_scope with wf.
Notation "x <- m ;; k" := (bind m (fun x => k))
  (at level 61, m at next level, right associativity) : wf_scope.
Notation "m ;; k" := (bind m (fun _ => k))
  (at level 61, right associativity) : wf_scope.
Local Open Scope wf_scope.

Definition get : Wf WfState := fun st => ([], Normal st st).
Definition modify (f : WfState -> WfState) : Wf unit :=
  fun st => ([], Normal tt (f st)).

(** [await call]: the call is issued, the workflow is suspended, the
    signals delivered meanwhile are handled, and the workflow resumes with
    the value or rethrows the rejection. *)
Definition await {A : Type} (call : Event) (s : Suspension A) : Wf A :=
  fun st =>
    let st' := handleSignals (delivered s) st in
    match settled s with
    | Resolved a => ([call], Normal a st')
    | Rejected err => ([call], Thrown err st')
    end.

(** [await wf.sleep(ms)]: a timer; it fires after [ms] whatever signals
    are handled meanwhile. *)
Definition sleep (ms : Z) (sigs : list Signal) : Wf unit :=
  await (EvSleep ms) (mkSuspension sigs (Resolved tt)).

(** ** The loop body *)

(** The environment of one iteration: one entry per [await] of the body. *)
Record CycleEnv : Type := mkCycleEnv {
  onSnoozeSleep : list Signal;
  onFetch : Suspension Traffic;
  onGenerate : Suspension string;
  onSendDelay : Suspension unit;
  onSendBackOnTrack : Suspension unit;
  onBaseSleep : list Signal
}.

(** JavaScript's rendering of an integer in a template literal. *)
Definition numberToString (n : Z) : string :=
  NilZero.string_of_int (Z.to_int n).

Definition delaySubject (args : MonitorArgs) : string :=
  "Delay update for delivery " ++ deliveryId args.

Definition backOnTrackSubject (args : MonitorArgs) : string :=
  "Update for delivery " ++ deliveryId args ++ ": back on track".

Definition backOnTrackBody (args : MonitorArgs) : string :=
  "Good news! Traffic has improved and your delivery from " ++ origin args
  ++ " to " ++ destination args
  ++ " is back on track. We'll keep monitoring.".

Definition idempotencyKey (args : MonitorArgs) (sequence : Z) : string :=
  deliveryId args ++ "-" ++ numberToString sequence.

Definition baseMs : Z := 30 * 60 * 1000.

(** [if (snoozeSleepMs !== null && !shouldCheckNow) { .. }]. *)
Definition respectSnooze (env : CycleEnv) : Wf unit :=
  st <- get;;
  match snoozeSleepMs st with
  | Some ms =>
      if negb (shouldCheckNow st)
      then modify (setSnooze None);; sleep ms (onSnoozeSleep env)
      else ret tt
  | None => ret tt
  end.

(** [const traffic = await fetchTrafficConditions(..);
     const delay = traffic.delayMinutes]. *)
Definition fetchDelay (args : MonitorArgs) (env : CycleEnv) : Wf Z :=
  traffic <- await (EvFetchTrafficConditions (origin args) (destination args))
                   (onFetch env);;
  ret (delayMinutes traffic).

(** The condition of the first [if]. *)
Definition shouldEscalate (args : MonitorArgs) (delay : Z) (st : WfState) : bool :=
  (thresholdMinutes args <=? delay)
  && (highestNotifiedDelayMinutes st + notifyDeltaMinutes args <=? delay).

(** The first [if]: the delay notification. *)
Definition notifyDelay (args : MonitorArgs) (env : CycleEnv) (delay : Z) : Wf unit :=
  st <- get;;
  if shouldEscalate args delay st then
    body <- await (EvGenerateDelayMessage (origin args) (destination args) delay)
                  (onGenerate env);;
    let subject := delaySubject args in
    modify (fun st => setSequence (notificationSequence st + 1) st);;
    st <- get;;
    let key := idempotencyKey args (notificationSequence st) in
    await (EvSendNotificationEmail (recipientEmail args) subject body key)
          (onSendDelay env);;
    modify (setHighest delay);;
    modify (setHasNotified true)
  else ret tt.

(** The condition of the second [if]. *)
Definition shouldClear (args : MonitorArgs) (delay : Z) (st : WfState) : bool :=
  hasNotifiedOverThreshold st && (delay <? thresholdMinutes args).

(** The second [if]: the one-time "back on track" message. *)
Definition notifyBackOnTrack (args : MonitorArgs) (env : CycleEnv) (delay : Z) : Wf unit :=
  st <- get;;
  if shouldClear args delay st then
    let body := backOnTrackBody args in
    let subject := backOnTrackSubject args in
    modify (fun st => setSequence (notificationSequence st + 1) st);;
    st <- get;;
    let key := idempotencyKey args (notificationSequence st) in
    await (EvSendNotificationEmail (recipientEmail args) subject body key)
          (onSendBackOnTrack env);;
    modify (setHasNotified false);;
    modify (setHighest 0)
  else ret tt.

(** [if (shouldCheckNow) shouldCheckNow = false; await wf.sleep(baseMs)]. *)
Definition finishCycle (env : CycleEnv) : Wf unit :=
  st <- get;;
  (if shouldCheckNow st then modify (setCheckNow false) else ret tt);;
  sleep baseMs (onBaseSleep env).

(** The part of the body that precedes the two decisions. *)
Definition waitAndFetch (args : MonitorArgs) (env : CycleEnv) : Wf Z :=
  respectSnooze env;; fetchDelay args env.

(** The two decisions and the end of the body. *)
Definition evaluateAndFinish (args : MonitorArgs) (env : CycleEnv) (delay : Z) : Wf unit :=
  notifyDelay args env delay;;
  notifyBackOnTrack args env delay;;
  finishCycle env.

(** One iteration of [while (true)]. *)
Definition cycle (args : MonitorArgs) (env : CycleEnv) : Wf unit :=
  delay <- waitAndFetch args env;;
  evaluateAndFinish args env delay.

(** [monitorDeliveryWorkflow], run for as many iterations as there are
    environments: the loop never ends normally, so a run is observed
    through its prefixes.  An exception leaves the loop. *)
Fixpoint monitorDeliveryWorkflowFrom (args : MonitorArgs) (envs : list CycleEnv) : Wf unit :=
  match envs with
  | [] => ret tt
  | env :: rest => cycle args env;; monitorDeliveryWorkflowFrom args rest
  end.

Definition monitorDeliveryWorkflow (args : MonitorArgs) (envs : list CycleEnv)
  : list Event * Outcome unit :=
  monitorDeliveryWorkflowFrom args envs initialState.

(** * The message activity *)

Module Activities.

(** The argument of [generateDelayMessage]. *)
Record Context : Type := mkContext {
  ctxOrigin : string;
  ctxDestination : string;
  ctxDelayMinutes : Z
}.

(** The variables of [process.env] the activity reads; [None] is an unset
    variable. *)
Record Env : Type := mkEnv {
  USE_MOCK_AI : option string;
  OPENAI_API_KEY : option string;
  OPENAI_MODEL : option string
}.

(** [json?.choices?.[0]?.message?.content]: missing somewhere along the
    chain, a string, or a value that has no [trim] method. *)
Inductive Content : Type :=
| ContentAbsent
| ContentText (s : string)
| ContentNotText.

(** How [res.json()] settles. *)
Inductive Body : Type :=
| BodyRejected (err : string)
| BodyJson (content : Content).

(** How the [fetch] of the completion settles. *)
Inductive Reply : Type :=
| NetworkError (err : string)
| Response (ok : bool) (status : Z) (body : Body).

(** The white space that [trim] removes, among the characters of one
    byte. *)
Definition isWhiteSpace (c : ascii) : bool :=
  match nat_of_ascii c with
  | 9%nat | 10%nat | 11%nat | 12%nat | 13%nat | 32%nat => true
  | _ => false
  end.

Fixpoint trimStart (s : string) : string :=
  match s with
  | EmptyString => EmptyString
  | String c s' => if isWhiteSpace c then trimStart s' else s
  end.

Fixpoint trimEnd (s : string) : string :=
  match s with
  | EmptyString => EmptyString
  | String c s' =>
      match trimEnd s' with
      | EmptyString => if isWhiteSpace c then EmptyString else String c EmptyString
      | t => String c t
      end
  end.

(** [String.prototype.trim]. *)
Definition trim (s : string) : string := trimEnd (trimStart s).

(** [(process.env.USE_MOCK_AI ?? 'false') === 'true']. *)
Definition useMock (env : Env) : bool :=
  String.eqb (match USE_MOCK_AI env with Some v => v | None => "false" end) "true".

(** [!apiKey]: the key is unset or empty. *)
Definition noApiKey (env : Env) : bool :=
  match OPENAI_API_KEY env with
  | None => true
  | Some key => String.eqb key ""
  end.

(** The closure [fallback]. *)
Definition fallback (context : Context) : string :=
  "Heads up! Your delivery from " ++ ctxOrigin context ++ " to "
  ++ ctxDestination context ++ " is delayed by about "
  ++ numberToString (ctxDelayMinutes context)
  ++ " minutes due to traffic. We'll keep you posted.".

(** The [try] block: the text it returns or the exception it throws. *)
Definition requestCompletion (reply : Reply) : Settled string :=
  match reply with
  | NetworkError err => Rejected err
  | Response ok status body =>
      if negb ok then Rejected ("OpenAI HTTP " ++ numberToString status)
      else
        match body with
        | BodyRejected err => Rejected err
        | BodyJson ContentAbsent => Rejected "OpenAI empty response"
        | BodyJson ContentNotText => Rejected "TypeError: trim is not a function"
        | BodyJson (ContentText s) =>
            let text := trim s in
            if String.eqb text "" then Rejected "OpenAI empty response"
            else Resolved text
        end
  end.

(** [generateDelayMessage]: the [catch] turns every exception of the
    [try] into the fallback. *)
Definition generateDelayMessage (env : Env) (reply : Reply) (context : Context)
  : Settled string :=
  if useMock env || noApiKey env then Resolved (fallback context)
  else
    match requestCompletion reply with
    | Resolved text => Resolved text
    | Rejected _ =>
        let fb := fallback context in
        Resolved fb
    end.

(** ** [fetchTrafficConditions] *)

(** The variables of [process.env] that [fetchTrafficConditions] reads. *)
Record TrafficEnv : Type := mkTrafficEnv {
  USE_MOCK_TRAFFIC : option string;
  GOOGLE_MAPS_API_KEY : option string;
  TRAFFIC_PROVIDER : option string
}.

(** [Math.max(0, Math.round((inTrafficSeconds - plannedSeconds) / 60))] on
    whole seconds, as both APIs report them: [Math.round] rounds to the
    nearest integer, halves upwards, which on [d / 60] is the floor of
    [(d + 30) / 60]. *)
Definition delayMinutesOf (plannedSeconds inTrafficSeconds : Z) : Z :=
  Z.max 0 ((inTrafficSeconds - plannedSeconds + 30) / 60).

(** [(process.env.USE_MOCK_TRAFFIC ?? 'false') === 'true']. *)
Definition useMockTraffic (env : TrafficEnv) : bool :=
  String.eqb (match USE_MOCK_TRAFFIC env with Some v => v | None => "false" end) "true".

(** [!apiKey]. *)
Definition noMapsKey (env : TrafficEnv) : bool :=
  match GOOGLE_MAPS_API_KEY env with
  | None => true
  | Some key => String.eqb key ""
  end.

Definition lowerChar (c : ascii) : ascii :=
  let n := nat_of_ascii c in
  if ((65 <=? n) && (n <=? 90))%nat then ascii_of_nat (n + 32) else c.

(** [toLowerCase], on the letters A to Z (no other character lower-cases
    to a character of ['google_routes']). *)
Fixpoint toLowerCase (s : string) : string :=
  match s with
  | EmptyString => EmptyString
  | String c s' => String (lowerChar c) (toLowerCase s')
  end.

(** [provider === 'google_routes']. *)
Definition usesRoutes (env : TrafficEnv) : bool :=
  String.eqb
    (toLowerCase (match TRAFFIC_PROVIDER env with Some v => v | None => "google_routes" end))
    "google_routes".

(** The value of a decimal digit, if the character is one. *)
Definition digitValue (c : ascii) : option Z :=
  let n := nat_of_ascii c in
  if ((48 <=? n) && (n <=? 57))%nat then Some (Z.of_nat (n - 48)) else None.

(** The digits of [s], which must be followed by a final ['s']; [acc] is
    the value of the digits already read. *)
Fixpoint secondsFrom (acc : Z) (s : string) : option Z :=
  match s with
  | EmptyString => None
  | String c rest =>
      match digitValue c with
      | None => None
      | Some d =>
          if String.eqb rest "s" then Some (acc * 10 + d)
          else secondsFrom (acc * 10 + d) rest
      end
  end.

(** The closure [toSeconds]: the number in a duration such as ["1234s"]
    (the match of [/^(\d+)s$/]), [None] standing for [NaN]. *)
Definition toSeconds (dur : option string) : option Z :=
  match dur with
  | None => None
  | Some s => if String.eqb s "" then None else secondsFrom 0 s
  end.

(** [json?.routes?.[0]], with the two fields the code reads. *)
Record Route : Type := mkRoute {
  duration : option string;
  staticDuration : option string
}.

Inductive RoutesBody : Type :=
| RoutesUnreadable (err : string)
| RoutesJson (route : option Route).

(** How the [fetch] of one attempt at the Routes API settles. *)
Inductive RoutesReply : Type :=
| RoutesNetworkError (err : string)
| RoutesResponse (ok : bool) (status : Z) (body : RoutesBody).

(** The [try] block of one attempt at the Routes API. *)
Definition routesAttempt (reply : RoutesReply) : Settled Traffic :=
  match reply with
  | RoutesNetworkError err => Rejected err
  | RoutesResponse ok status body =>
      if negb ok then Rejected ("Routes HTTP " ++ numberToString status)
      else
        match body with
        | RoutesUnreadable err => Rejected err
        | RoutesJson None => Rejected "Routes: missing routes[0]"
        | RoutesJson (Some route) =>
            let inTrafficSeconds := toSeconds (duration route) in
            let plannedSeconds :=
              match toSeconds (staticDuration route) with
              | None | Some 0 => inTrafficSeconds
              | Some p => Some p
              end in
            match inTrafficSeconds, plannedSeconds with
            | Some i, Some p => Resolved (mkTraffic p i (delayMinutesOf p i))
            | _, _ => Rejected "Routes: invalid duration fields"
            end
        end
  end.

(** [json?.rows?.[0]?.elements?.[0]]: its status and the two values the
    code converts with [Number], [None] standing for a missing value. *)
Record Element : Type := mkElement {
  elementStatus : option string;
  durationValue : option Z;
  durationInTrafficValue : option Z
}.

Inductive LegacyBody : Type :=
| LegacyUnreadable (err : string)
| LegacyJson (status : option string) (element : option Element).

(** How the [fetch] of one attempt at the Distance Matrix API settles. *)
Inductive LegacyReply : Type :=
| LegacyNetworkError (err : string)
| LegacyResponse (ok : bool) (status : Z) (body : LegacyBody).

Definition isSome (o : option string) (v : string) : bool :=
  match o with Some s => String.eqb s v | None => false end.

(** [json?.status && json.status !== 'OK']. *)
Definition badStatus (jsonStatus : option string) : bool :=
  match jsonStatus with
  | Some s => negb (String.eqb s "") && negb (String.eqb s "OK")
  | None => false
  end.

(** The rendering of a possibly missing string in a template literal. *)
Definition orUndefined (o : option string) : string :=
  match o with Some s => s | None => "undefined" end.

(** The [try] block of one attempt at the Distance Matrix API. *)
Definition legacyAttempt (reply : LegacyReply) : Settled Traffic :=
  match reply with
  | LegacyNetworkError err => Rejected err
  | LegacyResponse ok status body =>
      if negb ok then Rejected ("HTTP " ++ numberToString status)
      else
        match body with
        | LegacyUnreadable err => Rejected err
        | LegacyJson jsonStatus element =>
            if badStatus jsonStatus
            then Rejected ("DistanceMatrix status " ++ orUndefined jsonStatus)
            else
              match element with
              | None => Rejected "DistanceMatrix: missing rows/elements"
              | Some el =>
                  if negb (isSome (elementStatus el) "OK") then
                    if isSome (elementStatus el) "ZERO_RESULTS"
                       || isSome (elementStatus el) "NOT_FOUND"
                    then Resolved (mkTraffic 0 0 0)
                    else Rejected ("Element status " ++ orUndefined (elementStatus el))
                  else
                    let plannedSeconds := durationValue el in
                    let inTrafficSeconds :=
                      match durationInTrafficValue el with
                      | Some v => Some v
                      | None => plannedSeconds
                      end in
                    match plannedSeconds, inTrafficSeconds with
                    | Some p, Some i => Resolved (mkTraffic p i (delayMinutesOf p i))
                    | _, _ => Rejected "Invalid duration fields in response"
                    end
              end
        end
  end.

(** [for (let attempt = ..; attempt <= 2; attempt++) { try { .. } catch
    (err) { lastError = err; await setTimeout(attempt * 500) } }; throw
    lastError]: the attempts still to make, the reply each attempt gets,
    and the back-off waits made, in milliseconds. *)
Fixpoint attemptLoop {R : Type} (body : R -> Settled Traffic) (reply : Z -> R)
    (attempt : Z) (remaining : nat) (lastError : option string) (otherwise : string)
  : list Z * Settled Traffic :=
  match remaining with
  | O => ([], Rejected (match lastError with Some err => err | None => otherwise end))
  | S remaining' =>
      match body (reply attempt) with
      | Resolved traffic => ([], Resolved traffic)
      | Rejected err =>
          let (waits, out) :=
            attemptLoop body reply (attempt + 1) remaining' (Some err) otherwise in
          (attempt * 500 :: waits, out)
      end
  end.

(** [fetchTrafficConditions]: the back-off waits it makes and how it
    settles, given the reply each attempt would get from either API. *)
Definition fetchTrafficConditions (env : TrafficEnv)
    (routes : Z -> RoutesReply) (legacy : Z -> LegacyReply)
  : list Z * Settled Traffic :=
  if useMockTraffic env || noMapsKey env then
    let plannedSeconds := 3600 in
    let inTrafficSeconds := 5400 in
    ([], Resolved (mkTraffic plannedSeconds inTrafficSeconds
                     (delayMinutesOf plannedSeconds inTrafficSeconds)))
  else if usesRoutes env then
    attemptLoop routesAttempt routes 1 2 None "Routes API failure"
  else
    attemptLoop legacyAttempt legacy 1 2 None "Unknown traffic error".

(** The delay of [traffic] is the rounded difference of its durations. *)
Definition rounded (traffic : Traffic) : Prop :=
  delayMinutes traffic
  = delayMinutesOf (plannedSeconds traffic) (inTrafficSeconds traffic).


End Activities.

(** * The API routes *)

Module Api.


(** [`delivery-${deliveryId}-${isoDate}`], as the start route, the CLI and
    the seed script build it; [isoDate] is
    [new Date().toISOString().slice(0, 10)]. *)
Definition workflowId (deliveryId isoDate : string) : string :=
  "delivery-" ++ deliveryId ++ "-" ++ isoDate.

(** The body of a start request: [None] is a missing field; the fields
    are of the types the schema expects. *)
Record StartBody : Type := mkStartBody {
  bodyDeliveryId : option string;
  bodyOrigin : option string;
  bodyDestination : option string;
  bodyRecipientEmail : option string;
  bodyThresholdMinutes : option Q;
  bodyNotifyDeltaMinutes : option Q
}.

(** [z.string().min(1)]. *)
Definition nonEmpty (field : option string) : option string :=
  match field with
  | Some s => if String.eqb s "" then None else Some s
  | None => None
  end.

(** [z.number().int().positive().default(d)]. *)
Definition positiveIntOr (d : Z) (field : option Q) : option Z :=
  match field with
  | None => Some d
  | Some q =>
      if Qeq_bool (inject_Z (Qfloor q)) q && (0 <? Qfloor q)
      then Some (Qfloor q) else None
  end.

(** [schema.parse(body)], [None] when it throws; [validEmail] is the test
    of [z.string().email()]. *)
Definition parseStart (validEmail : string -> bool) (body : StartBody)
  : option MonitorArgs :=
  match nonEmpty (bodyDeliveryId body), nonEmpty (bodyOrigin body),
        nonEmpty (bodyDestination body), bodyRecipientEmail body,
        positiveIntOr 30 (bodyThresholdMinutes body),
        positiveIntOr 10 (bodyNotifyDeltaMinutes body) with
  | Some id, Some org, Some dst, Some email, Some threshold, Some delta =>
      if validEmail email
      then Some (mkMonitorArgs id org dst email threshold delta)
      else None
  | _, _, _, _, _, _ => None
  end.

(** What the start route answers: 202 with the workflow started on
    [args], or 503. *)
Inductive StartResponse : Type :=
| Accepted (workflowId runId : string) (args : MonitorArgs)
| Unavailable.

(** The start route; [start] is how [client.workflow.start] settles, with
    the run id. *)
Definition startRoute (validEmail : string -> bool) (isoDate : string)
    (body : StartBody) (start : Settled string) : StartResponse :=
  match parseStart validEmail body with
  | None => Unavailable
  | Some args =>
      match start with
      | Resolved runId => Accepted (workflowId (deliveryId args) isoDate) runId args
      | Rejected _ => Unavailable
      end
  end.

End Api.

(** * Observations and environments *)

(** A call to [sendNotificationEmail]. *)
Definition isSend (e : Event) : bool :=
  match e with EvSendNotificationEmail _ _ _ _ => true | _ => false end.

(** The delay notification is the e-mail sent with the delay subject. *)
Definition isDelayNotification (args : MonitorArgs) (e : Event) : bool :=
  match e with
  | EvSendNotificationEmail _ subject _ _ => String.eqb subject (delaySubject args)
  | _ => false
  end.

(** The all-clear is the e-mail sent with the "back on track" subject. *)
Definition isBackOnTrack (args : MonitorArgs) (e : Event) : bool :=
  match e with
  | EvSendNotificationEmail _ subject _ _ => String.eqb subject (backOnTrackSubject args)
  | _ => false
  end.

Definition delayNotificationSent (args : MonitorArgs) (tr : list Event) : bool :=
  existsb (isDelayNotification args) tr.

Definition backOnTrackSent (args : MonitorArgs) (tr : list Event) : bool :=
  existsb (isBackOnTrack args) tr.

(** The idempotency keys of the e-mails sent, in order. *)
Fixpoint sentKeys (tr : list Event) : list string :=
  match tr with
  | [] => []
  | EvSendNotificationEmail _ _ _ key :: tr' => key :: sentKeys tr'
  | _ :: tr' => sentKeys tr'
  end.

(** The environment of an iteration during which no signal arrives and
    every activity succeeds. *)
Definition quietEnv (delay : Z) (body : string) : CycleEnv :=
  {| onSnoozeSleep := [];
     onFetch := mkSuspension [] (Resolved (mkTraffic 3600 (3600 + 60 * delay) delay));
     onGenerate := mkSuspension [] (Resolved body);
     onSendDelay := mkSuspension [] (Resolved tt);
     onSendBackOnTrack := mkSuspension [] (Resolved tt);
     onBaseSleep := [] |}.

(** Whether an over-threshold episode is open after the calls [tr]: the
    last notification sent was a delay notification ([open] when none was
    sent). *)
Fixpoint episodeOpenFrom (args : MonitorArgs) (open : bool) (tr : list Event) : bool :=
  match tr with
  | [] => open
  | e :: tr' =>
      if isDelayNotification args e then episodeOpenFrom args true tr'
      else if isBackOnTrack args e then episodeOpenFrom args false tr'
      else episodeOpenFrom args open tr'
  end.

(** Every all-clear of [tr] is sent while an episode is open. *)
Fixpoint clearsGuarded (args : MonitorArgs) (open : bool) (tr : list Event) : bool :=
  match tr with
  | [] => true
  | e :: tr' =>
      if isDelayNotification args e then clearsGuarded args true tr'
      else if isBackOnTrack args e then open && clearsGuarded args false tr'
      else clearsGuarded args open tr'
  end.

(** The keys numbered [s + 1], ..., [s + n]. *)
Definition keysFrom (args : MonitorArgs) (s : Z) (n : nat) : list string :=
  map (fun i => idempotencyKey args (s + Z.of_nat i)) (seq 1 n).

(** An iteration during whose closing sleep the given signals arrive. *)
Definition quietEnvThenSignals (delay : Z) (body : string) (sigs : list Signal) : CycleEnv :=
  {| onSnoozeSleep := [];
     onFetch := mkSuspension [] (Resolved (mkTraffic 3600 (3600 + 60 * delay) delay));
     onGenerate := mkSuspension [] (Resolved body);
     onSendDelay := mkSuspension [] (Resolved tt);
     onSendBackOnTrack := mkSuspension [] (Resolved tt);
     onBaseSleep := sigs |}.

(** An iteration whose fetch is rejected. *)
Definition fetchRejectedEnv (err : string) : CycleEnv :=
  {| onSnoozeSleep := [];
     onFetch := mkSuspension [] (Rejected err);
     onGenerate := mkSuspension [] (Resolved "m");
     onSendDelay := mkSuspension [] (Resolved tt);
     onSendBackOnTrack := mkSuspension [] (Resolved tt);
     onBaseSleep := [] |}.

(** All the signals delivered during an iteration. *)
Definition signalsOf (env : CycleEnv) : list Signal :=
  (onSnoozeSleep env ++ delivered (onFetch env) ++ delivered (onGenerate env)
   ++ delivered (onSendDelay env) ++ delivered (onSendBackOnTrack env)
   ++ onBaseSleep env)%list.

(** A watermark other than 0 was a delay that passed both tests of the
    escalation. *)
Definition watermarkWasNotified (args : MonitorArgs) (st : WfState) : Prop :=
  highestNotifiedDelayMinutes st <> 0 ->
  thresholdMinutes args <= highestNotifiedDelayMinutes st
  /\ (0 <= notifyDeltaMinutes args ->
      notifyDeltaMinutes args <= highestNotifiedDelayMinutes st
      /\ 0 <= highestNotifiedDelayMinutes st).

(** ** Further observations *)

Definition isCheckNow (s : Signal) : bool :=
  match s with CheckNow => true | _ => false end.

(** Whether a [checkNow] is among the delivered signals. *)
Definition checkNowDelivered (sigs : list Signal) : bool :=
  existsb isCheckNow sigs.

(** The argument of the last [snooze] among the delivered signals. *)
Fixpoint lastSnooze (sigs : list Signal) : option Q :=
  match sigs with
  | [] => None
  | s :: sigs' =>
      match lastSnooze sigs' with
      | Some m => Some m
      | None => match s with Snooze m => Some m | _ => None end
      end
  end.



(** The delay last notified after the calls [tr], starting from [w]: the
    delay of the last message requested, 0 after an all-clear. *)
Fixpoint watermarkAfter (args : MonitorArgs) (w : Z) (tr : list Event) : Z :=
  match tr with
  | [] => w
  | EvGenerateDelayMessage _ _ d :: tr' => watermarkAfter args d tr'
  | e :: tr' =>
      if isBackOnTrack args e then watermarkAfter args 0 tr'
      else watermarkAfter args w tr'
  end.




(** With no notification outstanding the watermark is 0. *)
Definition idleHasNoWatermark (st : WfState) : Prop :=
  hasNotifiedOverThreshold st = false -> highestNotifiedDelayMinutes st = 0.

(** The fetch of the iteration, if it resolves, reports a delay under the
    threshold. *)
Definition belowThreshold (args : MonitorArgs) (env : CycleEnv) : Prop :=
  forall traffic,
    settled (onFetch env) = Resolved traffic ->
    delayMinutes traffic < thresholdMinutes args.


(** * Properties of the workflow *)

(** ** Signals and the watermark *)

Lemma handleSignals_hasNotified sigs : forall st,
  hasNotifiedOverThreshold (handleSignals sigs st) = hasNotifiedOverThreshold st.
Proof.
  induction sigs as [|s sigs IH]; intros st; [reflexivity|].
  change (handleSignals (s :: sigs) st) with (handleSignals sigs (handleSignal st s)).
  rewrite IH. now destruct s.
Qed.

Lemma handleSignals_sequence sigs : forall st,
  notificationSequence (handleSignals sigs st) = notificationSequence st.
Proof.
  induction sigs as [|s sigs IH]; intros st; [reflexivity|].
  change (handleSignals (s :: sigs) st) with (handleSignals sigs (handleSignal st s)).
  rewrite IH. now destruct s.
Qed.

Lemma handleSignals_highest sigs : forall st,
  highestNotifiedDelayMinutes (handleSignals sigs st)
  = if restarted sigs then 0 else highestNotifiedDelayMinutes st.
Proof.
  induction sigs as [|s sigs IH]; intros st; [reflexivity|].
  change (handleSignals (s :: sigs) st) with (handleSignals sigs (handleSignal st s)).
  rewrite IH. unfold restarted. cbn [existsb].
  destruct s; cbn; try reflexivity.
  now destruct (existsb isRouteRestarted sigs).
Qed.

Create Rewrite HintDb wf_fields.
#[local] Hint Rewrite handleSignals_hasNotified handleSignals_sequence
  handleSignals_highest : wf_fields.

Arguments delaySubject : simpl never.
Arguments backOnTrackSubject : simpl never.
Arguments backOnTrackBody : simpl never.
Arguments idempotencyKey : simpl never.
Arguments shouldEscalate : simpl never.
Arguments shouldClear : simpl never.
Arguments handleSignals : simpl never.
Arguments baseMs : simpl never.

(** Unfolding the body down to the monad's primitives. *)
Ltac wf_unfold :=
  unfold cycle, waitAndFetch, evaluateAndFinish, respectSnooze, fetchDelay,
    notifyDelay, notifyBackOnTrack, finishCycle, sleep, await, bind, get,
    modify, ret in *.

(** Case analysis on whatever blocks the evaluation of the goal. *)
Ltac wf_case :=
  match goal with
  | |- context [match settled ?s with _ => _ end] =>
      let E := fresh "Hsettled" in destruct (settled s) eqn:E
  | |- context [match snoozeSleepMs ?st with _ => _ end] =>
      let E := fresh "Hsnooze" in destruct (snoozeSleepMs st) eqn:E
  | |- context [if negb (shouldCheckNow ?st) then _ else _] =>
      let E := fresh "Hnow" in destruct (shouldCheckNow st) eqn:E
  | |- context [if shouldCheckNow ?st then _ else _] =>
      let E := fresh "Hnow" in destruct (shouldCheckNow st) eqn:E
  | |- context [if shouldEscalate ?a ?d ?st then _ else _] =>
      let E := fresh "Hesc" in destruct (shouldEscalate a d st) eqn:E
  | |- context [if shouldClear ?a ?d ?st then _ else _] =>
      let E := fresh "Hclr" in destruct (shouldClear a d st) eqn:E
  end.

(** ** The two decisions *)

Lemma shouldEscalate_spec args delay st :
  shouldEscalate args delay st = true
  <-> thresholdMinutes args <= delay
      /\ highestNotifiedDelayMinutes st + notifyDeltaMinutes args <= delay.
Proof.
  unfold shouldEscalate. rewrite andb_true_iff, !Z.leb_le. tauto.
Qed.

Lemma shouldClear_spec args delay st :
  shouldClear args delay st = true
  <-> hasNotifiedOverThreshold st = true /\ delay < thresholdMinutes args.
Proof.
  unfold shouldClear. rewrite andb_true_iff, Z.ltb_lt. tauto.
Qed.

(** The two subjects differ in their first character. *)
Lemma subjects_differ args : String.eqb (backOnTrackSubject args) (delaySubject args) = false.
Proof. reflexivity. Qed.

Lemma subjects_differ' args : String.eqb (delaySubject args) (backOnTrackSubject args) = false.
Proof. reflexivity. Qed.

(** The body splits at the moment the fetch returns. *)
Lemma cycle_after_fetch args env st tr0 delay st1 :
  waitAndFetch args env st = (tr0, Normal delay st1) ->
  cycle args env st
  = (let (tr, o) := evaluateAndFinish args env delay st1 in ((tr0 ++ tr)%list, o)).
Proof.
  intros H. unfold cycle, bind at 1. now rewrite H.
Qed.

(** Nothing is sent before the fetch returns. *)
Lemma waitAndFetch_sends_nothing args env st :
  existsb isSend (fst (waitAndFetch args env st)) = false.
Proof.
  wf_unfold. cbn. repeat (wf_case; cbn); reflexivity.
Qed.

(** Turning the recorded decisions into facts about the variables. *)
Ltac wf_facts :=
  repeat match goal with
  | H : shouldEscalate _ _ _ = true |- _ =>
      apply shouldEscalate_spec in H; destruct H
  | H : shouldEscalate _ _ _ = false |- _ =>
      apply not_true_iff_false in H; rewrite shouldEscalate_spec in H
  | H : shouldClear _ _ _ = true |- _ =>
      apply shouldClear_spec in H; destruct H
  | H : shouldClear _ _ _ = false |- _ =>
      apply not_true_iff_false in H; rewrite shouldClear_spec in H
  end;
  repeat (progress (cbn in *; autorewrite with wf_fields in * ));
  unfold delayNotificationSent, backOnTrackSent in *;
  cbn [existsb isDelayNotification isBackOnTrack isSend orb sentKeys fst snd] in *;
  rewrite ?String.eqb_refl, ?subjects_differ, ?subjects_differ' in *;
  cbn [orb] in *.

Lemma no_send_no_delayNotification args tr :
  existsb isSend tr = false -> delayNotificationSent args tr = false.
Proof.
  unfold delayNotificationSent.
  induction tr as [|e tr IH]; cbn; [reflexivity|].
  intros H. apply orb_false_iff in H as [He Htr].
  rewrite (IH Htr). destruct e; cbn in *; try reflexivity. discriminate.
Qed.

Lemma no_send_no_backOnTrack args tr :
  existsb isSend tr = false -> backOnTrackSent args tr = false.
Proof.
  unfold backOnTrackSent.
  induction tr as [|e tr IH]; cbn; [reflexivity|].
  intros H. apply orb_false_iff in H as [He Htr].
  rewrite (IH Htr). destruct e; cbn in *; try reflexivity. discriminate.
Qed.

Lemma delayNotificationSent_app args tr1 tr2 :
  delayNotificationSent args (tr1 ++ tr2)
  = delayNotificationSent args tr1 || delayNotificationSent args tr2.
Proof. apply existsb_app. Qed.

Lemma backOnTrackSent_app args tr1 tr2 :
  backOnTrackSent args (tr1 ++ tr2)
  = backOnTrackSent args tr1 || backOnTrackSent args tr2.
Proof. apply existsb_app. Qed.

(** What an iteration sends is decided after the fetch. *)
Lemma cycle_sends args env st tr0 delay st1 :
  waitAndFetch args env st = (tr0, Normal delay st1) ->
  delayNotificationSent args (fst (cycle args env st))
  = delayNotificationSent args (fst (evaluateAndFinish args env delay st1))
  /\ backOnTrackSent args (fst (cycle args env st))
     = backOnTrackSent args (fst (evaluateAndFinish args env delay st1))
  /\ snd (cycle args env st) = snd (evaluateAndFinish args env delay st1).
Proof.
  intros Hfetch.
  pose proof (waitAndFetch_sends_nothing args env st) as Hquiet.
  rewrite (cycle_after_fetch _ _ _ _ _ _ Hfetch).
  rewrite Hfetch in Hquiet. cbn [fst] in Hquiet.
  destruct (evaluateAndFinish args env delay st1) as [tr o]. cbn [fst snd].
  rewrite delayNotificationSent_app, backOnTrackSent_app.
  rewrite (no_send_no_delayNotification _ _ Hquiet).
  rewrite (no_send_no_backOnTrack _ _ Hquiet). auto.
Qed.

(** C1.  In every iteration in which the fetch returns [delay], with [st1]
    the variables at that moment: a delay notification is sent only if
    [delay >= thresholdMinutes] and
    [delay >= highestNotifiedDelayMinutes + notifyDeltaMinutes]; it is sent
    whenever both hold and the message text is obtained; and once the
    send has succeeded the iteration has set
    [hasNotifiedOverThreshold := true] and
    [highestNotifiedDelayMinutes := delay] (the watermark reads [delay]
    at the end of the iteration unless a [routeRestarted] handled during
    the closing sleep has reset it to 0). *)
Theorem escalation_iff_threshold_and_delta args env st tr0 delay st1 :
  waitAndFetch args env st = (tr0, Normal delay st1) ->
  (delayNotificationSent args (fst (cycle args env st)) = true ->
     thresholdMinutes args <= delay
     /\ highestNotifiedDelayMinutes st1 + notifyDeltaMinutes args <= delay)
  /\ (thresholdMinutes args <= delay ->
      highestNotifiedDelayMinutes st1 + notifyDeltaMinutes args <= delay ->
      (exists body, settled (onGenerate env) = Resolved body) ->
      delayNotificationSent args (fst (cycle args env st)) = true)
  /\ (delayNotificationSent args (fst (cycle args env st)) = true ->
      settled (onSendDelay env) = Resolved tt ->
      exists st',
        snd (cycle args env st) = Normal tt st'
        /\ hasNotifiedOverThreshold st' = true
        /\ highestNotifiedDelayMinutes st'
           = if restarted (onBaseSleep env) then 0 else delay).
Proof.
  intros Hfetch.
  destruct (cycle_sends _ _ _ _ _ _ Hfetch) as (-> & _ & ->).
  clear Hfetch st tr0.
  wf_unfold. cbn. repeat (wf_case; cbn).
  all: wf_facts; try lia.
  all: repeat split; intros; try discriminate; try lia; try tauto.
  all: try match goal with
       | H : exists _, Rejected _ = Resolved _ |- _ => destruct H; discriminate
       end.
  all: eexists; split; [reflexivity|].
  all: repeat (progress (cbn; autorewrite with wf_fields)); auto.
Qed.

(** The instance of C1 on the first iteration of a quiet run at delay 35. *)
Lemma escalation_iff_threshold_and_delta_witness :
  waitAndFetch (mkMonitorArgs "d1" "A" "B" "x@y.com" 30 10) (quietEnv 35 "m") initialState
  = ([EvFetchTrafficConditions "A" "B"], Normal 35 initialState)
  /\ delayNotificationSent (mkMonitorArgs "d1" "A" "B" "x@y.com" 30 10)
       (fst (cycle (mkMonitorArgs "d1" "A" "B" "x@y.com" 30 10) (quietEnv 35 "m") initialState))
     = true.
Proof.
  split; [reflexivity|].
  apply (escalation_iff_threshold_and_delta
           (mkMonitorArgs "d1" "A" "B" "x@y.com" 30 10) (quietEnv 35 "m")
           initialState [EvFetchTrafficConditions "A" "B"] 35 initialState
           eq_refl).
  - cbn. lia.
  - cbn. lia.
  - exists "m". reflexivity.
Defined.

(** ** Episodes *)

Lemma episodeOpenFrom_app args tr1 : forall open tr2,
  episodeOpenFrom args open (tr1 ++ tr2)
  = episodeOpenFrom args (episodeOpenFrom args open tr1) tr2.
Proof.
  induction tr1 as [|e tr1 IH]; intros open tr2; cbn; [reflexivity|].
  destruct (isDelayNotification args e); [apply IH|].
  destruct (isBackOnTrack args e); apply IH.
Qed.

Lemma clearsGuarded_app args tr1 : forall open tr2,
  clearsGuarded args open (tr1 ++ tr2)
  = clearsGuarded args open tr1
    && clearsGuarded args (episodeOpenFrom args open tr1) tr2.
Proof.
  induction tr1 as [|e tr1 IH]; intros open tr2; cbn; [reflexivity|].
  destruct (isDelayNotification args e); [apply IH|].
  destruct (isBackOnTrack args e); [|apply IH].
  rewrite IH. now rewrite andb_assoc.
Qed.

Lemma backOnTrack_not_delayNotification args e :
  isBackOnTrack args e = true -> isDelayNotification args e = false.
Proof.
  destruct e; cbn; try reflexivity.
  intros H. apply String.eqb_eq in H. subst. apply subjects_differ.
Qed.

(** An episode that was closed can only have been opened by a delay
    notification. *)
Lemma episodeOpenFrom_closed args tr :
  episodeOpenFrom args false tr = true -> delayNotificationSent args tr = true.
Proof.
  unfold delayNotificationSent.
  induction tr as [|e tr IH]; cbn; [discriminate|].
  destruct (isDelayNotification args e); [reflexivity|].
  destruct (isBackOnTrack args e); exact IH.
Qed.

(** A guarded all-clear finds the episode open. *)
Lemma clearsGuarded_at args open a e c :
  clearsGuarded args open (a ++ e :: c) = true ->
  isBackOnTrack args e = true ->
  episodeOpenFrom args open a = true
  /\ clearsGuarded args false c = true.
Proof.
  intros H He. rewrite clearsGuarded_app in H.
  apply andb_true_iff in H as [_ H]. cbn in H.
  rewrite (backOnTrack_not_delayNotification _ _ He), He in H.
  now apply andb_true_iff in H.
Qed.

(** One iteration keeps the all-clears guarded by the flag, and the flag
    tells whether the episode is open. *)
Lemma cycle_guarded args env st :
  clearsGuarded args (hasNotifiedOverThreshold st) (fst (cycle args env st)) = true
  /\ forall st', snd (cycle args env st) = Normal tt st' ->
       episodeOpenFrom args (hasNotifiedOverThreshold st) (fst (cycle args env st))
       = hasNotifiedOverThreshold st'.
Proof.
  wf_unfold. cbn. repeat (wf_case; cbn).
  all: wf_facts; try lia.
  all: split; [|intros st' Hst'; try discriminate; injection Hst' as <-;
                 repeat (progress (cbn; autorewrite with wf_fields)); auto].
  all: auto.
  all: match goal with H : hasNotifiedOverThreshold _ = true |- _ => now rewrite H end.
Qed.

(** The same for a run of any length, from any state. *)
Lemma run_guarded args envs : forall st,
  clearsGuarded args (hasNotifiedOverThreshold st)
    (fst (monitorDeliveryWorkflowFrom args envs st)) = true
  /\ forall st', snd (monitorDeliveryWorkflowFrom args envs st) = Normal tt st' ->
       episodeOpenFrom args (hasNotifiedOverThreshold st)
         (fst (monitorDeliveryWorkflowFrom args envs st))
       = hasNotifiedOverThreshold st'.
Proof.
  induction envs as [|env envs IH]; intros st.
  - cbn. split; [reflexivity|]. now intros st' [= <-].
  - cbn [monitorDeliveryWorkflowFrom]. unfold bind.
    destruct (cycle_guarded args env st) as [Hg Ho].
    destruct (cycle args env st) as [tr [[] st1|err st1]]; cbn [fst snd] in *.
    + destruct (IH st1) as [Hg' Ho'].
      destruct (monitorDeliveryWorkflowFrom args envs st1) as [tr' o'].
      cbn [fst snd] in *.
      rewrite clearsGuarded_app, episodeOpenFrom_app, (Ho st1 eq_refl).
      rewrite Hg, Hg'. split; [reflexivity|exact Ho'].
    + split; [exact Hg|discriminate].
Qed.

(** C2.  In every iteration in which the fetch returns [delay], with [st1]
    the variables at that moment, the all-clear is sent if and only if
    [hasNotifiedOverThreshold] is true and [delay < thresholdMinutes];
    once its send has succeeded the iteration has reset
    [highestNotifiedDelayMinutes := 0] and
    [hasNotifiedOverThreshold := false].  Hence in every run of the
    workflow an all-clear is preceded by a delay notification, and between
    two all-clears a delay notification is sent. *)
Theorem all_clear_iff_notified_and_below args env st tr0 delay st1 :
  waitAndFetch args env st = (tr0, Normal delay st1) ->
  (backOnTrackSent args (fst (cycle args env st)) = true
   <-> hasNotifiedOverThreshold st1 = true /\ delay < thresholdMinutes args)
  /\ (backOnTrackSent args (fst (cycle args env st)) = true ->
      settled (onSendBackOnTrack env) = Resolved tt ->
      exists st',
        snd (cycle args env st) = Normal tt st'
        /\ hasNotifiedOverThreshold st' = false
        /\ highestNotifiedDelayMinutes st' = 0)
  /\ (forall envs a e c,
        fst (monitorDeliveryWorkflow args envs) = (a ++ e :: c)%list ->
        isBackOnTrack args e = true ->
        delayNotificationSent args a = true)
  /\ (forall envs a e1 b e2 c,
        fst (monitorDeliveryWorkflow args envs) = (a ++ e1 :: b ++ e2 :: c)%list ->
        isBackOnTrack args e1 = true ->
        isBackOnTrack args e2 = true ->
        delayNotificationSent args b = true).
Proof.
  intros Hfetch.
  destruct (cycle_sends _ _ _ _ _ _ Hfetch) as (_ & -> & ->).
  clear Hfetch st tr0.
  split; [|split; [|split]].
  - wf_unfold. cbn. repeat (wf_case; cbn).
    all: wf_facts; try lia.
    all: split; intros; try discriminate; try tauto; auto.
  - wf_unfold. cbn. repeat (wf_case; cbn).
    all: wf_facts; try lia.
    all: intros; try discriminate.
    all: eexists; split; [reflexivity|].
    all: repeat (progress (cbn; autorewrite with wf_fields)).
    all: split; [reflexivity|]; now destruct (restarted _).
  - intros envs a e c Htr He.
    destruct (run_guarded args envs initialState) as [Hg _].
    unfold monitorDeliveryWorkflow in Htr. rewrite Htr in Hg.
    apply clearsGuarded_at in Hg as [Hopen _]; [|exact He].
    now apply episodeOpenFrom_closed.
  - intros envs a e1 b e2 c Htr He1 He2.
    destruct (run_guarded args envs initialState) as [Hg _].
    unfold monitorDeliveryWorkflow in Htr. rewrite Htr in Hg.
    apply clearsGuarded_at in Hg as [_ Hg]; [|exact He1].
    apply clearsGuarded_at in Hg as [Hopen _]; [|exact He2].
    now apply episodeOpenFrom_closed.
Qed.

(** The instance of C2 on an iteration at delay 20 that follows a
    notification at 35. *)
Lemma all_clear_iff_notified_and_below_witness :
  backOnTrackSent (mkMonitorArgs "d1" "A" "B" "x@y.com" 30 10)
    (fst (cycle (mkMonitorArgs "d1" "A" "B" "x@y.com" 30 10) (quietEnv 20 "m")
            (mkWfState 35 1 true None false)))
  = true.
Proof.
  apply (proj1 (all_clear_iff_notified_and_below
                  (mkMonitorArgs "d1" "A" "B" "x@y.com" 30 10) (quietEnv 20 "m")
                  (mkWfState 35 1 true None false)
                  [EvFetchTrafficConditions "A" "B"] 20
                  (mkWfState 35 1 true None false) eq_refl)).
  split; [reflexivity|cbn; lia].
Defined.

(** ** Idempotency keys *)

Lemma numberToString_inj n m : numberToString n = numberToString m -> n = m.
Proof.
  unfold numberToString. intros H.
  assert (Hnn : forall z, Z.to_int z <> Decimal.Pos Decimal.Nil
                          /\ Z.to_int z <> Decimal.Neg Decimal.Nil).
  { intros [|p|p]; cbn; split; try discriminate;
      intros [= E]; now apply (DecimalPos.Unsigned.to_uint_nonnil p). }
  apply DecimalZ.to_int_inj.
  assert (E : Some (Z.to_int n) = Some (Z.to_int m)).
  { rewrite <- (NilZero.isi (Z.to_int n)), <- (NilZero.isi (Z.to_int m));
      try apply Hnn. now rewrite H. }
  now injection E.
Qed.

Lemma append_inv_head (p s t : string) : (p ++ s = p ++ t)%string -> s = t.
Proof.
  induction p as [|c p IH]; cbn; [auto|].
  intros [= H]. auto.
Qed.

Lemma idempotencyKey_inj args n m :
  idempotencyKey args n = idempotencyKey args m -> n = m.
Proof.
  unfold idempotencyKey. intros H.
  apply append_inv_head in H. apply append_inv_head in H.
  now apply numberToString_inj.
Qed.

Lemma seq_offset k len : forall start,
  seq (start + k) len = map (fun i => (i + k)%nat) (seq start len).
Proof.
  induction len as [|len IH]; intros start; cbn; [reflexivity|].
  f_equal. apply (IH (S start)).
Qed.

Lemma keysFrom_app args s n1 n2 :
  keysFrom args s (n1 + n2)
  = (keysFrom args s n1 ++ keysFrom args (s + Z.of_nat n1) n2)%list.
Proof.
  unfold keysFrom. rewrite seq_app, map_app. f_equal.
  rewrite seq_offset, map_map. apply map_ext. intros i. f_equal. lia.
Qed.

Lemma sentKeys_app tr1 tr2 :
  sentKeys (tr1 ++ tr2) = (sentKeys tr1 ++ sentKeys tr2)%list.
Proof.
  induction tr1 as [|e tr1 IH]; cbn; [reflexivity|].
  destruct e; cbn; now rewrite ?IH.
Qed.

Lemma keysFrom_NoDup args s n : NoDup (keysFrom args s n).
Proof.
  unfold keysFrom. apply Injective_map_NoDup; [|apply seq_NoDup].
  intros i j H. apply idempotencyKey_inj in H. lia.
Qed.

(** One iteration issues the next keys and leaves the counter at the last
    one issued, whether it ends normally or not. *)
Lemma cycle_keys args env st :
  let n := List.length (sentKeys (fst (cycle args env st))) in
  sentKeys (fst (cycle args env st)) = keysFrom args (notificationSequence st) n
  /\ notificationSequence (stateOf (snd (cycle args env st)))
     = notificationSequence st + Z.of_nat n.
Proof.
  wf_unfold. cbn. repeat (wf_case; cbn).
  all: wf_facts; try lia.
  all: unfold keysFrom; cbn [seq map List.length Z.of_nat Pos.of_succ_nat Pos.succ].
  all: rewrite ?Z.add_0_r; split; reflexivity.
Qed.

(** The same for a run of any length, from any state. *)
Lemma run_keys args envs : forall st,
  let n := List.length (sentKeys (fst (monitorDeliveryWorkflowFrom args envs st))) in
  sentKeys (fst (monitorDeliveryWorkflowFrom args envs st))
  = keysFrom args (notificationSequence st) n
  /\ notificationSequence (stateOf (snd (monitorDeliveryWorkflowFrom args envs st)))
     = notificationSequence st + Z.of_nat n.
Proof.
  induction envs as [|env envs IH]; intros st.
  - cbn. split; [reflexivity|lia].
  - cbn [monitorDeliveryWorkflowFrom]. unfold bind.
    destruct (cycle_keys args env st) as [Hk Hs]. cbn zeta in Hk, Hs.
    destruct (cycle args env st) as [tr [[] st1|err st1]]; cbn [fst snd stateOf] in *.
    + destruct (IH st1) as [Hk' Hs']. cbn zeta in Hk', Hs'.
      destruct (monitorDeliveryWorkflowFrom args envs st1) as [tr' o'].
      cbn [fst snd] in *.
      rewrite sentKeys_app, length_app, keysFrom_app.
      rewrite <- Hk, <- Hs, <- Hk'. split; [reflexivity|].
      rewrite Hs', Hs. lia.
    + split; assumption.
Qed.

(** A run over [envs1 ++ envs2] is the run over [envs1] followed, if it
    has not thrown, by the run over [envs2]. *)
Lemma run_app args envs1 : forall envs2 st,
  monitorDeliveryWorkflowFrom args (envs1 ++ envs2) st
  = match monitorDeliveryWorkflowFrom args envs1 st with
    | (tr, Normal _ st1) =>
        let (tr', o) := monitorDeliveryWorkflowFrom args envs2 st1 in
        ((tr ++ tr')%list, o)
    | (tr, Thrown err st1) => (tr, Thrown err st1)
    end.
Proof.
  induction envs1 as [|env envs1 IH]; intros envs2 st.
  - cbn. now destruct (monitorDeliveryWorkflowFrom args envs2 st).
  - cbn [app monitorDeliveryWorkflowFrom]. unfold bind.
    destruct (cycle args env st) as [tr [[] st1|err st1]]; [|reflexivity].
    rewrite IH.
    destruct (monitorDeliveryWorkflowFrom args envs1 st1) as [tr1 [[] st2|err st2]];
      [|reflexivity].
    destruct (monitorDeliveryWorkflowFrom args envs2 st2) as [tr2 o2].
    now rewrite app_assoc.
Qed.

(** C8.  In every run of the workflow the key of the n-th e-mail sent
    (delay notification or all-clear) is [deliveryId-n]; the keys are
    pairwise distinct; [notificationSequence] equals the number of e-mails
    sent so far, is left alone by the signal handlers and never decreases
    as the run goes on. *)
Theorem idempotency_keys_count_up args envs :
  sentKeys (fst (monitorDeliveryWorkflow args envs))
  = map (fun n => deliveryId args ++ "-" ++ numberToString (Z.of_nat n))
        (seq 1 (List.length (sentKeys (fst (monitorDeliveryWorkflow args envs)))))
  /\ NoDup (sentKeys (fst (monitorDeliveryWorkflow args envs)))
  /\ notificationSequence (stateOf (snd (monitorDeliveryWorkflow args envs)))
     = Z.of_nat (List.length (sentKeys (fst (monitorDeliveryWorkflow args envs))))
  /\ (forall st s, notificationSequence (handleSignal st s) = notificationSequence st)
  /\ (forall envs',
        notificationSequence (stateOf (snd (monitorDeliveryWorkflow args envs)))
        <= notificationSequence
             (stateOf (snd (monitorDeliveryWorkflow args (envs ++ envs'))))).
Proof.
  unfold monitorDeliveryWorkflow.
  destruct (run_keys args envs initialState) as [Hk Hs]. cbn zeta in Hk, Hs.
  split; [|split; [|split; [|split]]].
  - exact Hk.
  - rewrite Hk. apply keysFrom_NoDup.
  - exact Hs.
  - intros st []; reflexivity.
  - intros envs'. rewrite run_app.
    destruct (monitorDeliveryWorkflowFrom args envs initialState)
      as [tr [[] st1|err st1]]; cbn [snd stateOf]; [|lia].
    destruct (run_keys args envs' st1) as [_ Hs']. cbn zeta in Hs'.
    destruct (monitorDeliveryWorkflowFrom args envs' st1) as [tr' o'].
    cbn [snd fst] in *. lia.
Qed.

(** ** Scenario: threshold 30, delta 10, delays 35, 38, 50, 20 *)

(** C9.  With [thresholdMinutes = 30] and [notifyDeltaMinutes = 10], from
    the initial state and with no signals, the delays 35, 38, 50, 20 make
    the workflow send exactly three e-mails: a delay notification at 35
    with key sequence 1, nothing at 38, a delay notification at 50 with
    key sequence 2, and the all-clear at 20 with key sequence 3. *)
Theorem scenario_35_38_50_20 (id org dst to b1 b2 b3 b4 : string) :
  fst (monitorDeliveryWorkflow (mkMonitorArgs id org dst to 30 10)
         [quietEnv 35 b1; quietEnv 38 b2; quietEnv 50 b3; quietEnv 20 b4])
  = [ EvFetchTrafficConditions org dst;
      EvGenerateDelayMessage org dst 35;
      EvSendNotificationEmail to ("Delay update for delivery " ++ id) b1 (id ++ "-1");
      EvSleep 1800000;
      EvFetchTrafficConditions org dst;
      EvSleep 1800000;
      EvFetchTrafficConditions org dst;
      EvGenerateDelayMessage org dst 50;
      EvSendNotificationEmail to ("Delay update for delivery " ++ id) b3 (id ++ "-2");
      EvSleep 1800000;
      EvFetchTrafficConditions org dst;
      EvSendNotificationEmail to ("Update for delivery " ++ id ++ ": back on track")
        ("Good news! Traffic has improved and your delivery from " ++ org
         ++ " to " ++ dst ++ " is back on track. We'll keep monitoring.")
        (id ++ "-3");
      EvSleep 1800000 ].
Proof. reflexivity. Qed.

(** ** Check-now and the two sleeps *)

(** C3.  What the loop does when [snooze(5)] and then [checkNow()] arrive
    during the closing sleep of an iteration: the 30-minute timer of that
    sleep is armed in full whatever arrives (first part), so the next
    fetch is issued only after it; the next iteration then skips the
    snooze sleep, and the snooze stays pending for the iteration after.
    With [snooze(5)] alone the snooze sleep is added to the base sleep. *)
Theorem check_now_skips_snooze_not_base_sleep :
  (forall env st, fst (finishCycle env st) = [EvSleep 1800000])
  /\ fst (monitorDeliveryWorkflow (mkMonitorArgs "d1" "A" "B" "x@y.com" 30 10)
            [quietEnvThenSignals 0 "m" [Snooze (5 # 1); CheckNow]; quietEnv 0 "m"])
     = [ EvFetchTrafficConditions "A" "B"; EvSleep 1800000;
         EvFetchTrafficConditions "A" "B"; EvSleep 1800000 ]
  /\ snoozeSleepMs
       (stateOf (snd (monitorDeliveryWorkflow (mkMonitorArgs "d1" "A" "B" "x@y.com" 30 10)
            [quietEnvThenSignals 0 "m" [Snooze (5 # 1); CheckNow]; quietEnv 0 "m"])))
     = Some 300000
  /\ fst (monitorDeliveryWorkflow (mkMonitorArgs "d1" "A" "B" "x@y.com" 30 10)
            [quietEnvThenSignals 0 "m" [Snooze (5 # 1)]; quietEnv 0 "m"])
     = [ EvFetchTrafficConditions "A" "B"; EvSleep 1800000; EvSleep 300000;
         EvFetchTrafficConditions "A" "B"; EvSleep 1800000 ].
Proof.
  split; [|repeat split; reflexivity].
  intros env st. unfold finishCycle, sleep, await, bind, get, modify, ret. cbn.
  now destruct (shouldCheckNow st).
Qed.

(** ** Failing activities *)

Lemma restarted_app sigs1 sigs2 :
  restarted (sigs1 ++ sigs2) = restarted sigs1 || restarted sigs2.
Proof. apply existsb_app. Qed.

Lemma signalsOf_quiet env :
  restarted (signalsOf env) = false ->
  restarted (onSnoozeSleep env) = false
  /\ restarted (delivered (onFetch env)) = false
  /\ restarted (delivered (onGenerate env)) = false
  /\ restarted (delivered (onSendDelay env)) = false
  /\ restarted (delivered (onSendBackOnTrack env)) = false
  /\ restarted (onBaseSleep env) = false.
Proof.
  unfold signalsOf. rewrite !restarted_app, !orb_false_iff. tauto.
Qed.

(** C4, on a run: the fetch of the first iteration is rejected; the
    workflow ends with that error and the second iteration never runs. *)
Lemma fetch_failure_ends_run_example :
  monitorDeliveryWorkflow (mkMonitorArgs "d1" "A" "B" "x@y.com" 30 10)
    [fetchRejectedEnv "Routes HTTP 503"; quietEnv 35 "m"]
  = ([EvFetchTrafficConditions "A" "B"], Thrown "Routes HTTP 503" initialState)
  /\ ~ (exists tr st',
          monitorDeliveryWorkflow (mkMonitorArgs "d1" "A" "B" "x@y.com" 30 10)
            [fetchRejectedEnv "Routes HTTP 503"; quietEnv 35 "m"]
          = (tr, Normal tt st')).
Proof.
  split; [reflexivity|]. intros (tr & st' & H). discriminate H.
Qed.

(** C4, as the code has it.  Nothing in the loop catches a rejection: an
    iteration whose fetch is rejected throws that error; an iteration that
    escalates throws the error of a rejected message generation or of a
    rejected send, and so does one whose all-clear send is rejected; and
    an iteration that throws ends the run with its error, whatever
    iterations would have followed. *)
Theorem collaborator_failure_ends_the_loop args env rest st :
  (forall err, settled (onFetch env) = Rejected err ->
     exists st', snd (cycle args env st) = Thrown err st')
  /\ (forall tr0 delay st1 err,
        waitAndFetch args env st = (tr0, Normal delay st1) ->
        shouldEscalate args delay st1 = true ->
        settled (onGenerate env) = Rejected err
        \/ (settled (onSendDelay env) = Rejected err
            /\ exists body, settled (onGenerate env) = Resolved body) ->
        exists st', snd (cycle args env st) = Thrown err st')
  /\ (forall tr0 delay st1 err,
        waitAndFetch args env st = (tr0, Normal delay st1) ->
        shouldClear args delay st1 = true ->
        settled (onSendBackOnTrack env) = Rejected err ->
        exists st', snd (cycle args env st) = Thrown err st')
  /\ (forall tr err st',
        cycle args env st = (tr, Thrown err st') ->
        monitorDeliveryWorkflowFrom args (env :: rest) st = (tr, Thrown err st')).
Proof.
  split; [|split; [|split]].
  - intros err Hfetch. wf_unfold. cbn. rewrite Hfetch.
    repeat (wf_case; cbn); eexists; reflexivity.
  - intros tr0 delay st1 err Hfetch Hesc Hrej.
    destruct (cycle_sends _ _ _ _ _ _ Hfetch) as (_ & _ & ->).
    wf_unfold. cbn. rewrite Hesc.
    destruct Hrej as [Hgen|[Hsend [body Hgen]]]; rewrite Hgen; cbn;
      [|rewrite Hsend; cbn]; eexists; reflexivity.
  - intros tr0 delay st1 err Hfetch Hclr Hrej.
    destruct (cycle_sends _ _ _ _ _ _ Hfetch) as (_ & _ & ->).
    wf_unfold. cbn. rewrite Hrej.
    destruct (shouldEscalate args delay st1) eqn:Hesc.
    + apply shouldEscalate_spec in Hesc as [Hover _].
      apply shouldClear_spec in Hclr as [_ Hbelow]. lia.
    + cbn. rewrite Hclr. cbn. eexists; reflexivity.
  - intros tr err st' Hcycle.
    cbn [monitorDeliveryWorkflowFrom]. unfold bind. now rewrite Hcycle.
Qed.

(** The instance of C4 on an iteration whose fetch is rejected. *)
Lemma collaborator_failure_ends_the_loop_witness :
  exists st',
    snd (cycle (mkMonitorArgs "d1" "A" "B" "x@y.com" 30 10)
           (fetchRejectedEnv "Routes HTTP 503") initialState)
    = Thrown "Routes HTTP 503" st'.
Proof.
  apply (proj1 (collaborator_failure_ends_the_loop
                  (mkMonitorArgs "d1" "A" "B" "x@y.com" 30 10)
                  (fetchRejectedEnv "Routes HTTP 503") [] initialState)).
  reflexivity.
Defined.

(** C5.  An iteration that ends in a failure leaves
    [hasNotifiedOverThreshold] as it found it, and
    [highestNotifiedDelayMinutes] too (a [routeRestarted] handled during
    the iteration apart: the handler, not the iteration, writes 0 then).
    An iteration changes [hasNotifiedOverThreshold] only when the matching
    e-mail has been sent and its send has succeeded. *)
Theorem failed_cycle_keeps_watermark args env st :
  (forall tr err st',
     cycle args env st = (tr, Thrown err st') ->
     hasNotifiedOverThreshold st' = hasNotifiedOverThreshold st
     /\ (restarted (signalsOf env) = false ->
         highestNotifiedDelayMinutes st' = highestNotifiedDelayMinutes st))
  /\ (forall tr st',
        cycle args env st = (tr, Normal tt st') ->
        (hasNotifiedOverThreshold st' <> hasNotifiedOverThreshold st
         \/ (restarted (signalsOf env) = false
             /\ highestNotifiedDelayMinutes st' <> highestNotifiedDelayMinutes st)) ->
        (delayNotificationSent args tr = true
         /\ settled (onSendDelay env) = Resolved tt)
        \/ (backOnTrackSent args tr = true
            /\ settled (onSendBackOnTrack env) = Resolved tt)).
Proof.
  split.
  - intros tr err st'. wf_unfold. cbn. repeat (wf_case; cbn).
    all: intros [= <- <- <-] || (intros H; discriminate H).
    all: wf_facts; try lia.
    all: split; [reflexivity|]; intros Hq;
      apply signalsOf_quiet in Hq as (Q1 & Q2 & Q3 & Q4 & Q5 & Q6);
      rewrite ?Q1, ?Q2, ?Q3, ?Q4, ?Q5, ?Q6; reflexivity.
  - intros tr st'. wf_unfold. cbn. repeat (wf_case; cbn).
    all: intros [= <- <-] || (intros H; discriminate H).
    all: wf_facts; try lia.
    all: repeat match goal with u : unit |- _ => destruct u end.
    all: try (left; split; reflexivity).
    all: try (right; split; reflexivity).
    all: intros [Hflag|[Hq Hhigh]]; [congruence|].
    all: apply signalsOf_quiet in Hq as (Q1 & Q2 & Q3 & Q4 & Q5 & Q6);
      rewrite ?Q1, ?Q2, ?Q3, ?Q4, ?Q5, ?Q6 in Hhigh; congruence.
Qed.

(** The instance of C5 on an iteration whose notification send is
    rejected. *)
Lemma failed_cycle_keeps_watermark_witness :
  hasNotifiedOverThreshold
    (setSequence 1 initialState) = hasNotifiedOverThreshold initialState
  /\ (restarted [] = false ->
      highestNotifiedDelayMinutes (setSequence 1 initialState)
      = highestNotifiedDelayMinutes initialState).
Proof.
  exact (proj1 (failed_cycle_keeps_watermark
                  (mkMonitorArgs "d1" "A" "B" "x@y.com" 30 10)
                  {| onSnoozeSleep := [];
                     onFetch := mkSuspension [] (Resolved (mkTraffic 3600 5700 35));
                     onGenerate := mkSuspension [] (Resolved "m");
                     onSendDelay := mkSuspension [] (Rejected "SendGrid HTTP 500 ");
                     onSendBackOnTrack := mkSuspension [] (Resolved tt);
                     onBaseSleep := [] |}
                  initialState)
          [EvFetchTrafficConditions "A" "B"; EvGenerateDelayMessage "A" "B" 35;
           EvSendNotificationEmail "x@y.com" "Delay update for delivery d1" "m" "d1-1"]
          "SendGrid HTTP 500 " (setSequence 1 initialState) eq_refl).
Defined.

(** ** Route restarts *)

(** When the fetch resolves, the first part of the body ends normally with
    its delay, and a watermark at 0 is still at 0. *)
Lemma waitAndFetch_resolved args env st traffic :
  settled (onFetch env) = Resolved traffic ->
  exists tr0 st1,
    waitAndFetch args env st = (tr0, Normal (delayMinutes traffic) st1)
    /\ (highestNotifiedDelayMinutes st = 0 -> highestNotifiedDelayMinutes st1 = 0).
Proof.
  intros Hfetch. wf_unfold. cbn. rewrite Hfetch.
  repeat (wf_case; cbn); do 2 eexists; (split; [reflexivity|]).
  all: intros H0; repeat (progress (cbn; autorewrite with wf_fields)).
  all: rewrite ?H0; repeat match goal with |- context [restarted ?s] => destruct (restarted s) end;
    reflexivity.
Qed.

(** An iteration escalates when both conditions hold and the message text
    is obtained. *)
Lemma cycle_escalates args env st tr0 delay st1 body :
  waitAndFetch args env st = (tr0, Normal delay st1) ->
  thresholdMinutes args <= delay ->
  highestNotifiedDelayMinutes st1 + notifyDeltaMinutes args <= delay ->
  settled (onGenerate env) = Resolved body ->
  delayNotificationSent args (fst (cycle args env st)) = true.
Proof.
  intros Hfetch Hover Hdelta Hgen.
  destruct (cycle_sends _ _ _ _ _ _ Hfetch) as (-> & _ & _).
  assert (Hesc : shouldEscalate args delay st1 = true)
    by (apply shouldEscalate_spec; split; assumption).
  wf_unfold. cbn. rewrite Hesc, Hgen. cbn.
  repeat (wf_case; cbn); wf_facts; reflexivity.
Qed.

(** C6, on a run with [thresholdMinutes = 30] and [notifyDeltaMinutes =
    50]: after a notification at 60 and a [routeRestarted], the watermark
    is 0 and the next delay, 35, is over the threshold, yet nothing is
    sent for it. *)
Lemma restart_then_delay_below_delta_example :
  let args := mkMonitorArgs "d1" "A" "B" "x@y.com" 30 50 in
  let st := stateOf (snd (monitorDeliveryWorkflow args
                            [quietEnvThenSignals 60 "m1" [RouteRestarted]])) in
  highestNotifiedDelayMinutes st = 0
  /\ hasNotifiedOverThreshold st = true
  /\ thresholdMinutes args <= 35
  /\ delayNotificationSent args (fst (cycle args (quietEnv 35 "m2") st)) = false
  /\ sentKeys (fst (monitorDeliveryWorkflow args
                      [quietEnvThenSignals 60 "m1" [RouteRestarted]; quietEnv 35 "m2"]))
     = ["d1-1"].
Proof. cbn. repeat split; try reflexivity. lia. Qed.

(** C6, as the code has it.  The [routeRestarted] handler sets
    [highestNotifiedDelayMinutes] to 0 and leaves the four other variables
    as they are; the iteration that follows sends a delay notification for
    any delay that is at least [thresholdMinutes] and at least
    [notifyDeltaMinutes] (provided the fetch and the message generation
    succeed). *)
Theorem route_restarted_resets_watermark_only args env st traffic body :
  handleSignal st RouteRestarted
  = {| highestNotifiedDelayMinutes := 0;
       notificationSequence := notificationSequence st;
       hasNotifiedOverThreshold := hasNotifiedOverThreshold st;
       snoozeSleepMs := snoozeSleepMs st;
       shouldCheckNow := shouldCheckNow st |}
  /\ (settled (onFetch env) = Resolved traffic ->
      settled (onGenerate env) = Resolved body ->
      thresholdMinutes args <= delayMinutes traffic ->
      notifyDeltaMinutes args <= delayMinutes traffic ->
      delayNotificationSent args
        (fst (cycle args env (handleSignal st RouteRestarted))) = true).
Proof.
  split; [reflexivity|].
  intros Hfetch Hgen Hover Hdelta.
  destruct (waitAndFetch_resolved args env (handleSignal st RouteRestarted) _ Hfetch)
    as (tr0 & st1 & Hwait & Hzero).
  apply (cycle_escalates _ _ _ _ _ _ body Hwait Hover); [|exact Hgen].
  rewrite (Hzero eq_refl). lia.
Qed.

(** The instance of C6 with threshold 30, delta 50 and delay 50. *)
Lemma route_restarted_resets_watermark_only_witness :
  delayNotificationSent (mkMonitorArgs "d1" "A" "B" "x@y.com" 30 50)
    (fst (cycle (mkMonitorArgs "d1" "A" "B" "x@y.com" 30 50) (quietEnv 50 "m2")
            (handleSignal (mkWfState 60 1 true None false) RouteRestarted)))
  = true.
Proof.
  apply (proj2 (route_restarted_resets_watermark_only
                  (mkMonitorArgs "d1" "A" "B" "x@y.com" 30 50) (quietEnv 50 "m2")
                  (mkWfState 60 1 true None false)
                  (mkTraffic 3600 (3600 + 60 * 50) 50) "m2")).
  - reflexivity.
  - reflexivity.
  - cbn. lia.
  - cbn. lia.
Defined.

Ltac case_restarted :=
  repeat match goal with
  | H : context [restarted ?s] |- _ => destruct (restarted s)
  | |- context [restarted ?s] => destruct (restarted s)
  end.

Lemma cycle_watermarkWasNotified args env st tr st' :
  watermarkWasNotified args st ->
  cycle args env st = (tr, Normal tt st') ->
  watermarkWasNotified args st'.
Proof.
  unfold watermarkWasNotified. intros Hinv.
  wf_unfold. cbn. repeat (wf_case; cbn).
  all: intros [= <- <-] || (intros H; discriminate H).
  all: wf_facts; try lia.
  all: case_restarted; lia.
Qed.

Lemma run_watermarkWasNotified args envs : forall st tr st',
  watermarkWasNotified args st ->
  monitorDeliveryWorkflowFrom args envs st = (tr, Normal tt st') ->
  watermarkWasNotified args st'.
Proof.
  induction envs as [|env envs IH]; intros st tr st' Hinv.
  - cbn. now intros [= <- <-].
  - cbn [monitorDeliveryWorkflowFrom]. unfold bind.
    destruct (cycle args env st) as [tr1 [[] st1|err st1]] eqn:Hcycle;
      [|discriminate].
    destruct (monitorDeliveryWorkflowFrom args envs st1) as [tr2 o2] eqn:Hrun.
    intros [= <- ->].
    apply (IH st1 tr2 st' (cycle_watermarkWasNotified _ _ _ _ _ Hinv Hcycle) Hrun).
Qed.

(** C7.  In a state reached by a run of the workflow whose watermark is
    [w > 0]: [routeRestarted] puts the watermark back to 0, and the
    iteration that follows, fetching the delay [w], sends a delay
    notification (provided the message generation succeeds). *)
Theorem old_watermark_retriggers_after_restart args envs tr st env traffic body :
  monitorDeliveryWorkflow args envs = (tr, Normal tt st) ->
  0 < highestNotifiedDelayMinutes st ->
  settled (onFetch env) = Resolved traffic ->
  delayMinutes traffic = highestNotifiedDelayMinutes st ->
  settled (onGenerate env) = Resolved body ->
  highestNotifiedDelayMinutes (handleSignal st RouteRestarted) = 0
  /\ delayNotificationSent args
       (fst (cycle args env (handleSignal st RouteRestarted))) = true.
Proof.
  intros Hrun Hpos Hfetch Hdelay Hgen. split; [reflexivity|].
  assert (Hinv : watermarkWasNotified args st).
  { apply (run_watermarkWasNotified args envs initialState tr st); [|exact Hrun].
    intros H. now elim H. }
  destruct (waitAndFetch_resolved args env (handleSignal st RouteRestarted) _ Hfetch)
    as (tr0 & st1 & Hwait & Hzero).
  unfold watermarkWasNotified in Hinv.
  apply (cycle_escalates _ _ _ _ _ _ body Hwait); [lia| |exact Hgen].
  rewrite (Hzero eq_refl). lia.
Qed.

(** The instance of C7 after one notification at 35, with threshold 30 and
    delta 10. *)
Lemma old_watermark_retriggers_after_restart_witness :
  delayNotificationSent (mkMonitorArgs "d1" "A" "B" "x@y.com" 30 10)
    (fst (cycle (mkMonitorArgs "d1" "A" "B" "x@y.com" 30 10) (quietEnv 35 "m2")
            (handleSignal (mkWfState 35 1 true None false) RouteRestarted)))
  = true.
Proof.
  apply (proj2 (old_watermark_retriggers_after_restart
                  (mkMonitorArgs "d1" "A" "B" "x@y.com" 30 10)
                  [quietEnv 35 "m1"]
                  [EvFetchTrafficConditions "A" "B"; EvGenerateDelayMessage "A" "B" 35;
                   EvSendNotificationEmail "x@y.com" "Delay update for delivery d1"
                     "m1" "d1-1";
                   EvSleep 1800000]
                  (mkWfState 35 1 true None false)
                  (quietEnv 35 "m2") (mkTraffic 3600 (3600 + 60 * 35) 35) "m2"
                  eq_refl ltac:(cbn; lia) eq_refl eq_refl eq_refl)).
Defined.

(** * Properties of the message activity *)

Section MessageActivity.

Import Activities.

Lemma fallback_nonempty context : fallback context <> "".
Proof. unfold fallback. cbn. discriminate. Qed.

(** C10.  Whatever the arguments, the environment and the provider's
    reply, [generateDelayMessage] resolves, with a non-empty string: the
    provider's trimmed completion when there is one, the static template
    otherwise -- in mock mode, without an API key, on a network error, on
    an HTTP error status, on an unreadable body and on a missing or blank
    completion. *)
Theorem generateDelayMessage_never_fails env reply context :
  (exists text,
     generateDelayMessage env reply context = Resolved text
     /\ text <> ""
     /\ (text = fallback context
         \/ exists status s,
              reply = Response true status (BodyJson (ContentText s))
              /\ text = trim s))
  /\ (useMock env = true \/ noApiKey env = true ->
      generateDelayMessage env reply context = Resolved (fallback context))
  /\ (forall err, requestCompletion reply = Rejected err ->
      generateDelayMessage env reply context = Resolved (fallback context))
  /\ (forall err, requestCompletion (NetworkError err) = Rejected err)
  /\ (forall status body, exists err,
        requestCompletion (Response false status body) = Rejected err)
  /\ (forall status err,
        requestCompletion (Response true status (BodyRejected err)) = Rejected err)
  /\ (forall status, exists err,
        requestCompletion (Response true status (BodyJson ContentAbsent)) = Rejected err)
  /\ (forall status s, trim s = "" -> exists err,
        requestCompletion (Response true status (BodyJson (ContentText s))) = Rejected err).
Proof.
  repeat split.
  - unfold generateDelayMessage.
    destruct (useMock env || noApiKey env).
    { eexists; repeat split; [apply fallback_nonempty|now left]. }
    destruct reply as [err|[] status [err|[|s|]]]; cbn;
      try (eexists; repeat split; [apply fallback_nonempty|now left]).
    destruct (String.eqb_spec (trim s) "") as [E|E].
    + eexists; repeat split; [apply fallback_nonempty|now left].
    + eexists; repeat split; [exact E|right; eauto].
  - intros H. unfold generateDelayMessage.
    destruct H as [-> | ->]; [reflexivity|now rewrite orb_true_r].
  - intros err H. unfold generateDelayMessage. rewrite H.
    now destruct (useMock env || noApiKey env).
  - eexists; reflexivity.
  - intros status. eexists; reflexivity.
  - intros status s E. cbn. rewrite E. eexists; reflexivity.
Qed.

(** The instance of C10 on an HTTP 429 reply. *)
Lemma generateDelayMessage_never_fails_witness :
  generateDelayMessage (mkEnv None (Some "sk-test") None)
    (Response false 429 (BodyJson ContentAbsent))
    (mkContext "A" "B" 35)
  = Resolved "Heads up! Your delivery from A to B is delayed by about 35 minutes due to traffic. We'll keep you posted.".
Proof.
  apply (proj1 (proj2 (proj2 (generateDelayMessage_never_fails
                  (mkEnv None (Some "sk-test") None)
                  (Response false 429 (BodyJson ContentAbsent))
                  (mkContext "A" "B" 35))))
           "OpenAI HTTP 429").
  reflexivity.
Defined.



End MessageActivity.

(** * Further properties of the workflow *)

(** ** The signal handlers *)

Lemma handleSignals_cons s sigs st :
  handleSignals (s :: sigs) st = handleSignals sigs (handleSignal st s).
Proof. reflexivity. Qed.

Lemma handleSignals_checkNow sigs : forall st,
  shouldCheckNow (handleSignals sigs st)
  = shouldCheckNow st || checkNowDelivered sigs.
Proof.
  induction sigs as [|s sigs IH]; intros st.
  - cbn. now rewrite orb_false_r.
  - rewrite handleSignals_cons, IH. unfold checkNowDelivered. cbn [existsb].
    destruct s; cbn; try reflexivity.
    now rewrite orb_true_r.
Qed.

Lemma handleSignals_snooze sigs : forall st,
  snoozeSleepMs (handleSignals sigs st)
  = match lastSnooze sigs with
    | Some minutes => Some (Z.max 0 (Qfloor minutes * 60000))
    | None => snoozeSleepMs st
    end.
Proof.
  induction sigs as [|s sigs IH]; intros st; [reflexivity|].
  rewrite handleSignals_cons, IH. cbn [lastSnooze].
  destruct (lastSnooze sigs); [reflexivity|]. now destruct s.
Qed.

(** X1.  What a batch of signals does to the variables, whatever their
    number and order: the watermark is 0 if a [routeRestarted] is among
    them and is unchanged otherwise; the check-now flag is set if it was
    set or a [checkNow] is among them; the pending snooze is that of the
    last [snooze] of the batch (earlier ones are overwritten), or the one
    already pending; the sequence and the over-threshold flag are never
    touched.  Two handlers commute unless both are [snooze]. *)
Theorem signals_normal_form sigs st :
  handleSignals sigs st
  = {| highestNotifiedDelayMinutes :=
         if restarted sigs then 0 else highestNotifiedDelayMinutes st;
       notificationSequence := notificationSequence st;
       hasNotifiedOverThreshold := hasNotifiedOverThreshold st;
       snoozeSleepMs :=
         match lastSnooze sigs with
         | Some minutes => Some (Z.max 0 (Qfloor minutes * 60000))
         | None => snoozeSleepMs st
         end;
       shouldCheckNow := shouldCheckNow st || checkNowDelivered sigs |}
  /\ (forall s1 s2,
        (forall m1 m2, s1 = Snooze m1 -> s2 = Snooze m2 -> False) ->
        handleSignals [s1; s2] st = handleSignals [s2; s1] st).
Proof.
  split.
  - generalize (handleSignals_highest sigs st) (handleSignals_sequence sigs st)
      (handleSignals_hasNotified sigs st) (handleSignals_snooze sigs st)
      (handleSignals_checkNow sigs st).
    destruct (handleSignals sigs st); cbn.
    intros -> -> -> -> ->. reflexivity.
  - intros [m1| |] [m2| |] H; try reflexivity.
    now elim (H m1 m2).
Qed.

(** The instance of X1 on [routeRestarted] and [checkNow]. *)
Lemma signals_normal_form_witness :
  handleSignals [RouteRestarted; CheckNow] initialState
  = handleSignals [CheckNow; RouteRestarted] initialState.
Proof.
  apply (proj2 (signals_normal_form [] initialState) RouteRestarted CheckNow).
  intros m1 m2 H. discriminate H.
Defined.

(** ** Timers *)







(** ** What one iteration does *)

(** X3.  An iteration sends at most one e-mail: the delay notification and
    the all-clear never go out together. *)
Theorem one_email_per_cycle args env st :
  (List.length (sentKeys (fst (cycle args env st))) <= 1)%nat
  /\ delayNotificationSent args (fst (cycle args env st))
     && backOnTrackSent args (fst (cycle args env st)) = false.
Proof.
  wf_unfold. cbn. repeat (wf_case; cbn).
  all: wf_facts; try lia.
  all: split; [cbn; lia|reflexivity].
Qed.

(** X6.  The check-now flag is one-shot and only survives when it is
    raised during the closing sleep: after an iteration that ends
    normally it is set exactly when a [checkNow] was handled during that
    sleep.  A [checkNow] that was pending at the start, or that arrives
    while the iteration is fetching, generating or sending, is cleared by
    the iteration. *)
Theorem check_now_is_cleared_by_the_cycle args env st tr st' :
  cycle args env st = (tr, Normal tt st') ->
  shouldCheckNow st' = checkNowDelivered (onBaseSleep env).
Proof.
  wf_unfold. cbn. repeat (wf_case; cbn).
  all: intros [= <- <-] || (intros H; discriminate H).
  all: rewrite handleSignals_checkNow; cbn.
  all: try reflexivity.
  all: match goal with H : shouldCheckNow _ = false |- _ => now rewrite H end.
Qed.

(** The instance of X6 on an iteration during whose fetch a [checkNow]
    arrives. *)
Lemma check_now_is_cleared_by_the_cycle_witness :
  shouldCheckNow (mkWfState 0 0 false None false) = checkNowDelivered [].
Proof.
  exact (check_now_is_cleared_by_the_cycle
           (mkMonitorArgs "d1" "A" "B" "x@y.com" 30 10)
           {| onSnoozeSleep := [];
              onFetch := mkSuspension [CheckNow] (Resolved (mkTraffic 3600 3600 0));
              onGenerate := mkSuspension [] (Resolved "m");
              onSendDelay := mkSuspension [] (Resolved tt);
              onSendBackOnTrack := mkSuspension [] (Resolved tt);
              onBaseSleep := [] |}
           initialState
           [EvFetchTrafficConditions "A" "B"; EvSleep 1800000]
           (mkWfState 0 0 false None false) eq_refl).
Defined.

Lemma lastSnooze_app sigs1 sigs2 :
  lastSnooze (sigs1 ++ sigs2)
  = match lastSnooze sigs2 with
    | Some m => Some m
    | None => lastSnooze sigs1
    end.
Proof.
  induction sigs1 as [|s sigs1 IH]; cbn.
  - now destruct (lastSnooze sigs2).
  - rewrite IH. now destruct (lastSnooze sigs2).
Qed.

Lemma signalsOf_no_snooze env :
  lastSnooze (signalsOf env) = None ->
  lastSnooze (onSnoozeSleep env) = None
  /\ lastSnooze (delivered (onFetch env)) = None
  /\ lastSnooze (delivered (onGenerate env)) = None
  /\ lastSnooze (delivered (onSendDelay env)) = None
  /\ lastSnooze (delivered (onSendBackOnTrack env)) = None
  /\ lastSnooze (onBaseSleep env) = None.
Proof.
  unfold signalsOf. rewrite !lastSnooze_app.
  destruct (lastSnooze (onBaseSleep env)); [discriminate|].
  destruct (lastSnooze (delivered (onSendBackOnTrack env))); [discriminate|].
  destruct (lastSnooze (delivered (onSendDelay env))); [discriminate|].
  destruct (lastSnooze (delivered (onGenerate env))); [discriminate|].
  destruct (lastSnooze (delivered (onFetch env))); [discriminate|].
  intros H. repeat split; auto.
Qed.

(** X7.  A pending snooze is slept once, before the fetch, by the first
    iteration that starts without a pending check-now; an iteration that
    starts with a check-now pending (or with no snooze) fetches at once.
    A check-now does not cancel the snooze: with no new [snooze] arriving,
    the snooze is still pending after such an iteration, and is gone
    after any other. *)
Theorem snooze_is_slept_once_unless_check_now args env st :
  (forall ms, snoozeSleepMs st = Some ms -> shouldCheckNow st = false ->
     exists tr,
       fst (cycle args env st)
       = EvSleep ms :: EvFetchTrafficConditions (origin args) (destination args) :: tr)
  /\ (snoozeSleepMs st = None \/ shouldCheckNow st = true ->
      exists tr,
        fst (cycle args env st)
        = EvFetchTrafficConditions (origin args) (destination args) :: tr)
  /\ (forall tr st',
        cycle args env st = (tr, Normal tt st') ->
        lastSnooze (signalsOf env) = None ->
        snoozeSleepMs st' = if shouldCheckNow st then snoozeSleepMs st else None).
Proof.
  split; [|split].
  - intros ms Hs Hn. wf_unfold. cbn. rewrite Hs, Hn. cbn.
    repeat (wf_case; cbn); eexists; reflexivity.
  - intros H. wf_unfold. cbn.
    destruct (snoozeSleepMs st) as [ms|] eqn:Hs;
      [destruct H as [H|H]; [discriminate|rewrite H]|]; cbn.
    all: repeat (wf_case; cbn); eexists; reflexivity.
  - intros tr st'. wf_unfold. cbn. repeat (wf_case; cbn).
    all: intros [= <- <-] || (intros H; discriminate H).
    all: intros Hq;
      apply signalsOf_no_snooze in Hq as (Q1 & Q2 & Q3 & Q4 & Q5 & Q6).
    all: repeat (rewrite handleSignals_snooze; cbn).
    all: rewrite ?Q1, ?Q2, ?Q3, ?Q4, ?Q5, ?Q6; cbn; auto.
Qed.

(** The instance of X7 on a pending snooze of five minutes. *)
Lemma snooze_is_slept_once_unless_check_now_witness :
  exists tr,
    fst (cycle (mkMonitorArgs "d1" "A" "B" "x@y.com" 30 10) (quietEnv 0 "m")
           (mkWfState 0 0 false (Some 300000) false))
    = EvSleep 300000 :: EvFetchTrafficConditions "A" "B" :: tr.
Proof.
  apply (proj1 (snooze_is_slept_once_unless_check_now
                  (mkMonitorArgs "d1" "A" "B" "x@y.com" 30 10) (quietEnv 0 "m")
                  (mkWfState 0 0 false (Some 300000) false)) 300000);
    reflexivity.
Defined.

(** ** Invariants of a run *)

Lemma cycle_idleHasNoWatermark args env st :
  idleHasNoWatermark st ->
  idleHasNoWatermark (stateOf (snd (cycle args env st))).
Proof.
  unfold idleHasNoWatermark. intros Hinv.
  wf_unfold. cbn. repeat (wf_case; cbn).
  all: wf_facts; try lia.
  all: intros Hf; try discriminate; try specialize (Hinv Hf).
  all: case_restarted; auto; try congruence.
Qed.

Lemma run_idleHasNoWatermark args envs : forall st,
  idleHasNoWatermark st ->
  idleHasNoWatermark (stateOf (snd (monitorDeliveryWorkflowFrom args envs st))).
Proof.
  induction envs as [|env envs IH]; intros st Hinv; [exact Hinv|].
  cbn [monitorDeliveryWorkflowFrom]. unfold bind.
  pose proof (cycle_idleHasNoWatermark args env st Hinv) as H1.
  destruct (cycle args env st) as [tr [[] st1|err st1]]; cbn [snd stateOf] in *.
  - specialize (IH st1 H1).
    now destruct (monitorDeliveryWorkflowFrom args envs st1) as [tr' o'].
  - exact H1.
Qed.

(** X8.  In every state a run can reach, normally or by a failure, a
    cleared over-threshold flag comes with a watermark of 0: the
    watermark is non-zero only between a delay notification and the
    all-clear (or route restart) that follows it. *)
Theorem idle_state_has_no_watermark args envs :
  hasNotifiedOverThreshold (stateOf (snd (monitorDeliveryWorkflow args envs))) = false ->
  highestNotifiedDelayMinutes (stateOf (snd (monitorDeliveryWorkflow args envs))) = 0.
Proof.
  apply (run_idleHasNoWatermark args envs initialState).
  intros _. reflexivity.
Qed.

(** The instance of X8 after a notification at 35 and the all-clear at
    20. *)
Lemma idle_state_has_no_watermark_witness :
  highestNotifiedDelayMinutes
    (stateOf (snd (monitorDeliveryWorkflow (mkMonitorArgs "d1" "A" "B" "x@y.com" 30 10)
                     [quietEnv 35 "m1"; quietEnv 20 "m2"]))) = 0.
Proof.
  apply (idle_state_has_no_watermark (mkMonitorArgs "d1" "A" "B" "x@y.com" 30 10)
           [quietEnv 35 "m1"; quietEnv 20 "m2"]).
  reflexivity.
Defined.

(** An iteration that starts with nothing notified and fetches a delay
    under the threshold sends nothing and notifies nothing. *)
Lemma cycle_below_threshold args env st :
  belowThreshold args env ->
  hasNotifiedOverThreshold st = false ->
  sentKeys (fst (cycle args env st)) = []
  /\ hasNotifiedOverThreshold (stateOf (snd (cycle args env st))) = false
  /\ notificationSequence (stateOf (snd (cycle args env st))) = notificationSequence st.
Proof.
  unfold belowThreshold. intros Hbelow Hflag.
  wf_unfold. cbn. repeat (wf_case; cbn).
  all: wf_facts.
  all: try specialize (Hbelow _ eq_refl).
  all: try lia; try congruence.
  all: repeat split; auto.
Qed.

(** X4.  While every fetched delay stays under the threshold, a run from
    the initial state sends no e-mail at all, whatever its length and
    whatever signals arrive: the sequence stays 0, the flag stays clear
    and the watermark stays 0. *)
Theorem no_crossing_no_notification args envs :
  Forall (belowThreshold args) envs ->
  sentKeys (fst (monitorDeliveryWorkflow args envs)) = []
  /\ notificationSequence (stateOf (snd (monitorDeliveryWorkflow args envs))) = 0
  /\ hasNotifiedOverThreshold (stateOf (snd (monitorDeliveryWorkflow args envs))) = false
  /\ highestNotifiedDelayMinutes (stateOf (snd (monitorDeliveryWorkflow args envs))) = 0.
Proof.
  intros Hall.
  assert (H : forall st, hasNotifiedOverThreshold st = false ->
            sentKeys (fst (monitorDeliveryWorkflowFrom args envs st)) = []
            /\ hasNotifiedOverThreshold
                 (stateOf (snd (monitorDeliveryWorkflowFrom args envs st))) = false
            /\ notificationSequence
                 (stateOf (snd (monitorDeliveryWorkflowFrom args envs st)))
               = notificationSequence st).
  { induction Hall as [|env envs Henv Hall IH]; intros st Hflag.
    - cbn. auto.
    - cbn [monitorDeliveryWorkflowFrom]. unfold bind.
      destruct (cycle_below_threshold args env st Henv Hflag) as (Hk & Hf & Hs).
      destruct (cycle args env st) as [tr [[] st1|err st1]]; cbn [fst snd stateOf] in *.
      + destruct (IH st1 Hf) as (Hk' & Hf' & Hs').
        destruct (monitorDeliveryWorkflowFrom args envs st1) as [tr' o'].
        cbn [fst snd] in *. rewrite sentKeys_app, Hk, Hk'.
        repeat split; auto. congruence.
      + auto. }
  destruct (H initialState eq_refl) as (Hk & Hf & Hs).
  repeat split; auto.
  apply (run_idleHasNoWatermark args envs initialState); [|exact Hf].
  intros _. reflexivity.
Qed.

(** The instance of X4 on a hundred quiet iterations at a delay of 10
    minutes. *)
Lemma no_crossing_no_notification_witness :
  sentKeys (fst (monitorDeliveryWorkflow (mkMonitorArgs "d1" "A" "B" "x@y.com" 30 10)
                   (repeat (quietEnv 10 "m") 100))) = [].
Proof.
  apply (proj1 (no_crossing_no_notification
                  (mkMonitorArgs "d1" "A" "B" "x@y.com" 30 10)
                  (repeat (quietEnv 10 "m") 100)
                  ltac:(apply Forall_forall; intros env Hin;
                        apply repeat_spec in Hin; subst env;
                        intros traffic [= <-]; cbn; lia))).
Defined.

(** ** Spacing of the delay notifications *)

Lemma watermarkAfter_app args tr1 : forall w tr2,
  watermarkAfter args w (tr1 ++ tr2)
  = watermarkAfter args (watermarkAfter args w tr1) tr2.
Proof.
  induction tr1 as [|e tr1 IH]; intros w tr2; [reflexivity|].
  destruct e; cbn; try apply IH.
  destruct (String.eqb subject (backOnTrackSubject args)); apply IH.
Qed.







(** * Properties of the traffic activity *)

Section TrafficActivity.

Import Activities.

Lemma delayMinutesOf_spec p i :
  0 <= delayMinutesOf p i
  /\ (delayMinutesOf p i = 0 <-> i - p < 30)
  /\ (forall k, 0 < k ->
        (delayMinutesOf p i = k <-> 60 * k - 30 <= i - p < 60 * k + 30)).
Proof.
  unfold delayMinutesOf.
  repeat split; intros; Z.to_euclidean_division_equations; lia.
Qed.

Lemma routesAttempt_rounded reply traffic :
  routesAttempt reply = Resolved traffic -> rounded traffic.
Proof.
  unfold routesAttempt, rounded.
  destruct reply as [err|[] status [err|[route|]]]; cbn; try discriminate.
  destruct (toSeconds (duration route)) as [i|]; cbn;
    destruct (toSeconds (staticDuration route)) as [[|p|p]|]; cbn;
    try discriminate; intros [= <-]; reflexivity.
Qed.

Lemma legacyAttempt_rounded reply traffic :
  legacyAttempt reply = Resolved traffic -> rounded traffic.
Proof.
  unfold legacyAttempt, rounded.
  destruct reply as [err|[] status [err|jsonStatus [el|]]]; cbn; try discriminate.
  all: destruct (badStatus jsonStatus); try discriminate.
  destruct (isSome (elementStatus el) "OK"); cbn.
  - destruct (durationValue el) as [p|], (durationInTrafficValue el) as [i|];
      cbn; try discriminate; intros [= <-]; reflexivity.
  - destruct (isSome (elementStatus el) "ZERO_RESULTS" || isSome (elementStatus el) "NOT_FOUND");
      try discriminate.
    intros [= <-]. reflexivity.
Qed.

(** What the loop resolves with, one of its attempts resolved with. *)
Lemma attemptLoop_resolved {R : Type} (body : R -> Settled Traffic) reply otherwise
    remaining : forall attempt lastError waits traffic,
  attemptLoop body reply attempt remaining lastError otherwise = (waits, Resolved traffic) ->
  exists k, body (reply k) = Resolved traffic.
Proof.
  induction remaining as [|remaining IH]; intros attempt lastError waits traffic; cbn.
  - discriminate.
  - destruct (body (reply attempt)) as [t|err] eqn:Hbody.
    + intros [= <- <-]. now exists attempt.
    + destruct (attemptLoop body reply (attempt + 1) remaining (Some err) otherwise)
        as [waits' out'] eqn:Hloop.
      intros [= <- ->]. apply (IH _ _ _ _ Hloop).
Qed.

(** X9.  Whatever the environment and the provider replies, a
    [fetchTrafficConditions] that resolves reports a delay that is never
    negative and is the difference of its two durations rounded to the
    nearest minute, halves upwards: it is 0 exactly when the traffic
    costs less than 30 seconds (or saves time), and [k >= 1] exactly when
    the difference is within 30 seconds of [k] minutes. *)
Theorem fetched_delay_is_rounded env routes legacy waits traffic :
  fetchTrafficConditions env routes legacy = (waits, Resolved traffic) ->
  0 <= delayMinutes traffic
  /\ (delayMinutes traffic = 0
      <-> inTrafficSeconds traffic - plannedSeconds traffic < 30)
  /\ (forall k, 0 < k ->
        (delayMinutes traffic = k
         <-> 60 * k - 30 <= inTrafficSeconds traffic - plannedSeconds traffic
             < 60 * k + 30)).
Proof.
  intros H.
  assert (Hr : rounded traffic).
  { unfold fetchTrafficConditions in H.
    destruct (useMockTraffic env || noMapsKey env).
    - injection H as _ <-. reflexivity.
    - destruct (usesRoutes env); apply attemptLoop_resolved in H as [k Hk].
      + now apply routesAttempt_rounded in Hk.
      + now apply legacyAttempt_rounded in Hk. }
  unfold rounded in Hr. rewrite Hr. apply delayMinutesOf_spec.
Qed.

(** The instance of X9 on a route of 1200 s that takes 1289 s in
    traffic. *)
Lemma fetched_delay_is_rounded_witness :
  0 <= 1
  /\ (1 = 0 <-> 1289 - 1200 < 30)
  /\ (forall k, 0 < k -> (1 = k <-> 60 * k - 30 <= 1289 - 1200 < 60 * k + 30)).
Proof.
  exact (fetched_delay_is_rounded
           (mkTrafficEnv None (Some "k") (Some "Google_Routes"))
           (fun a => if a =? 1 then RoutesNetworkError "down"
                     else RoutesResponse true 200
                            (RoutesJson (Some (mkRoute (Some "1289s") (Some "1200s")))))
           (fun _ => LegacyNetworkError "x")
           [500] (mkTraffic 1200 1289 1) eq_refl).
Defined.

(** X10.  With a key and outside mock mode, [fetchTrafficConditions]
    makes at most two attempts at the configured API: it resolves with
    the first attempt that succeeds, waiting 500 ms after a failed first
    attempt, and rejects only when both fail, after waiting 500 ms and
    1000 ms, with the error of the second attempt. *)
Theorem fetch_retries_once env routes legacy :
  useMockTraffic env || noMapsKey env = false ->
  let attempt k :=
    if usesRoutes env then routesAttempt (routes k) else legacyAttempt (legacy k) in
  fetchTrafficConditions env routes legacy
  = match attempt 1, attempt 2 with
    | Resolved traffic, _ => ([], Resolved traffic)
    | Rejected _, Resolved traffic => ([500], Resolved traffic)
    | Rejected _, Rejected err => ([500; 1000], Rejected err)
    end.
Proof.
  intros Hreal. unfold fetchTrafficConditions. rewrite Hreal.
  destruct (usesRoutes env); cbn.
  - destruct (routesAttempt (routes 1)); [reflexivity|].
    now destruct (routesAttempt (routes 2)).
  - destruct (legacyAttempt (legacy 1)); [reflexivity|].
    now destruct (legacyAttempt (legacy 2)).
Qed.

(** The instance of X10 on a first attempt that fails and a second that
    succeeds. *)
Lemma fetch_retries_once_witness :
  fetchTrafficConditions (mkTrafficEnv None (Some "k") None)
    (fun a => if a =? 1 then RoutesNetworkError "down"
              else RoutesResponse true 200
                     (RoutesJson (Some (mkRoute (Some "1289s") (Some "1200s")))))
    (fun _ => LegacyNetworkError "x")
  = ([500], Resolved (mkTraffic 1200 1289 1)).
Proof.
  exact (fetch_retries_once (mkTrafficEnv None (Some "k") None)
           (fun a => if a =? 1 then RoutesNetworkError "down"
                     else RoutesResponse true 200
                            (RoutesJson (Some (mkRoute (Some "1289s") (Some "1200s")))))
           (fun _ => LegacyNetworkError "x") eq_refl).
Defined.

(** ** Durations *)








(** ** Edge cases of the two APIs *)

(** X12.  A route of the Routes API whose [staticDuration] is missing,
    unreadable or zero is not an error: the planned time is taken to be
    the time in traffic and the delay is 0.  A route whose [duration] is
    missing or unreadable fails the attempt, whatever its
    [staticDuration]. *)
Theorem route_without_static_duration_has_no_delay status route :
  (forall i,
     toSeconds (duration route) = Some i ->
     toSeconds (staticDuration route) = None
     \/ toSeconds (staticDuration route) = Some 0 ->
     routesAttempt (RoutesResponse true status (RoutesJson (Some route)))
     = Resolved (mkTraffic i i 0))
  /\ (toSeconds (duration route) = None ->
      routesAttempt (RoutesResponse true status (RoutesJson (Some route)))
      = Rejected "Routes: invalid duration fields").
Proof.
  split.
  - intros i Hi Hs. cbn. rewrite Hi.
    assert (Hd : delayMinutesOf i i = 0)
      by (unfold delayMinutesOf; replace (i - i + 30) with 30 by lia; reflexivity).
    destruct Hs as [-> | ->]; cbn; now rewrite Hd.
  - intros Hi. cbn. rewrite Hi.
    now destruct (toSeconds (staticDuration route)) as [[|p|p]|].
Qed.

(** The instance of X12 on a route of 900 s without static duration. *)
Lemma route_without_static_duration_has_no_delay_witness :
  routesAttempt (RoutesResponse true 200 (RoutesJson (Some (mkRoute (Some "900s") None))))
  = Resolved (mkTraffic 900 900 0).
Proof.
  apply (proj1 (route_without_static_duration_has_no_delay 200
                  (mkRoute (Some "900s") None)) 900).
  - reflexivity.
  - left. reflexivity.
Defined.

(** When the fetch resolves, the first part of the body ends normally with
    its delay and the over-threshold flag as it was. *)
Lemma waitAndFetch_resolved_flag args env st traffic :
  settled (onFetch env) = Resolved traffic ->
  exists tr0 st1,
    waitAndFetch args env st = (tr0, Normal (delayMinutes traffic) st1)
    /\ hasNotifiedOverThreshold st1 = hasNotifiedOverThreshold st.
Proof.
  intros Hfetch. wf_unfold. cbn. rewrite Hfetch.
  repeat (wf_case; cbn); do 2 eexists; (split; [reflexivity|]).
  all: repeat (progress (cbn; autorewrite with wf_fields)); reflexivity.
Qed.

(** An iteration sends the all-clear when the flag is set and the delay
    is under the threshold. *)
Lemma cycle_clears args env st tr0 delay st1 :
  waitAndFetch args env st = (tr0, Normal delay st1) ->
  hasNotifiedOverThreshold st1 = true ->
  delay < thresholdMinutes args ->
  backOnTrackSent args (fst (cycle args env st)) = true.
Proof.
  intros Hfetch Hflag Hbelow.
  destruct (cycle_sends _ _ _ _ _ _ Hfetch) as (_ & -> & _).
  assert (Hclr : shouldClear args delay st1 = true)
    by (apply shouldClear_spec; split; assumption).
  assert (Hesc : shouldEscalate args delay st1 = false).
  { apply not_true_iff_false. rewrite shouldEscalate_spec. lia. }
  wf_unfold. cbn. rewrite Hesc. cbn. rewrite Hclr. cbn.
  repeat (wf_case; cbn); wf_facts; reflexivity.
Qed.

(** X13.  A Distance Matrix element with status [ZERO_RESULTS] or
    [NOT_FOUND] is not an error: the fetch resolves at once, without a
    retry, with all three figures 0.  The workflow cannot tell this from
    a free road: an iteration that receives it while a delay notification
    is outstanding sends the all-clear. *)
Theorem no_route_reads_as_no_delay env routes legacy status jsonStatus el :
  useMockTraffic env || noMapsKey env = false ->
  usesRoutes env = false ->
  legacy 1 = LegacyResponse true status (LegacyJson jsonStatus (Some el)) ->
  badStatus jsonStatus = false ->
  elementStatus el = Some "ZERO_RESULTS" \/ elementStatus el = Some "NOT_FOUND" ->
  fetchTrafficConditions env routes legacy = ([], Resolved (mkTraffic 0 0 0))
  /\ forall args cenv st,
       settled (onFetch cenv) = snd (fetchTrafficConditions env routes legacy) ->
       hasNotifiedOverThreshold st = true ->
       0 < thresholdMinutes args ->
       backOnTrackSent args (fst (cycle args cenv st)) = true.
Proof.
  intros Hreal Hlegacy Hreply Hjson Hel.
  assert (Hfetch : fetchTrafficConditions env routes legacy
                   = ([], Resolved (mkTraffic 0 0 0))).
  { unfold fetchTrafficConditions. rewrite Hreal, Hlegacy. cbn.
    rewrite Hreply. cbn. rewrite Hjson.
    destruct Hel as [-> | ->]; reflexivity. }
  split; [exact Hfetch|].
  intros args cenv st Hsettled Hflag Hthr.
  rewrite Hfetch in Hsettled. cbn in Hsettled.
  destruct (waitAndFetch_resolved_flag args cenv st _ Hsettled)
    as (tr0 & st1 & Hwait & Hflag1).
  apply (cycle_clears _ _ _ _ _ _ Hwait); [congruence|exact Hthr].
Qed.

(** The instance of X13 on a [ZERO_RESULTS] element received after a
    notification at 35. *)
Lemma no_route_reads_as_no_delay_witness :
  fetchTrafficConditions (mkTrafficEnv None (Some "k") (Some "google_legacy"))
    (fun _ => RoutesNetworkError "unused")
    (fun _ => LegacyResponse true 200
                (LegacyJson (Some "OK") (Some (mkElement (Some "ZERO_RESULTS") None None))))
  = ([], Resolved (mkTraffic 0 0 0)).
Proof.
  apply (proj1 (no_route_reads_as_no_delay
                  (mkTrafficEnv None (Some "k") (Some "google_legacy"))
                  (fun _ => RoutesNetworkError "unused")
                  (fun _ => LegacyResponse true 200
                     (LegacyJson (Some "OK")
                        (Some (mkElement (Some "ZERO_RESULTS") None None))))
                  200 (Some "OK") (mkElement (Some "ZERO_RESULTS") None None)
                  eq_refl eq_refl eq_refl eq_refl (or_introl eq_refl))).
Defined.

End TrafficActivity.

(** * Properties of the API routes *)

Section ApiRoutes.

Import Api.




Lemma append_same_length (a b x y : string) :
  String.length a = String.length b ->
  a ++ x = b ++ y -> a = b /\ x = y.
Proof.
  revert b. induction a as [|c a IH]; intros [|d b]; cbn; try discriminate.
  - auto.
  - intros [= Hlen] [= -> H]. destruct (IH b Hlen H) as [-> ->]. auto.
Qed.

Lemma length_append (a b : string) :
  String.length (a ++ b) = (String.length a + String.length b)%nat.
Proof. induction a as [|c a IH]; cbn; [reflexivity|now rewrite IH]. Qed.

(** X15.  Workflow ids do not collide: with dates of ten characters, as
    [toISOString().slice(0, 10)] gives them, two ids are equal only for
    the same delivery id and the same date -- also when the delivery ids
    contain dashes. *)
Theorem workflowId_is_injective id1 date1 id2 date2 :
  String.length date1 = 10%nat ->
  String.length date2 = 10%nat ->
  workflowId id1 date1 = workflowId id2 date2 ->
  id1 = id2 /\ date1 = date2.
Proof.
  intros H1 H2 H. unfold workflowId in H.
  apply append_inv_head in H.
  assert (Hlen : String.length id1 = String.length id2).
  { apply (f_equal String.length) in H. rewrite !length_append in H.
    cbn in H. lia. }
  apply (append_same_length _ _ _ _ Hlen) in H as [-> H].
  split; [reflexivity|]. now injection H.
Qed.

(** The instance of X15 on one delivery and one day. *)
Lemma workflowId_is_injective_witness :
  "seed-sf-oak" = "seed-sf-oak" /\ "2025-01-31" = "2025-01-31".
Proof.
  exact (workflowId_is_injective "seed-sf-oak" "2025-01-31" "seed-sf-oak" "2025-01-31"
           eq_refl eq_refl eq_refl).
Defined.

Lemma positiveIntOr_positive d field v :
  0 < d -> positiveIntOr d field = Some v ->
  0 < v /\ (field = None -> v = d).
Proof.
  intros Hd. unfold positiveIntOr. destruct field as [q|].
  - destruct (Qeq_bool (inject_Z (Qfloor q)) q && (0 <? Qfloor q)) eqn:E; [|discriminate].
    apply andb_true_iff in E as [_ E]. apply Z.ltb_lt in E.
    intros [= <-]. split; [exact E|discriminate].
  - intros [= <-]. auto.
Qed.

Lemma nonEmpty_some field s : nonEmpty field = Some s -> field = Some s /\ s <> "".
Proof.
  unfold nonEmpty. destruct field as [t|]; [|discriminate].
  destruct (String.eqb_spec t ""); [discriminate|].
  intros [= <-]. auto.
Qed.

(** X16.  The start route never starts a monitor on unchecked arguments:
    when it answers 202, the workflow was started with a positive
    threshold and a positive delta (30 and 10 when the request leaves
    them out), non-empty delivery id, origin and destination taken from
    the request, an e-mail address that passed the check, and under the
    id [delivery-<deliveryId>-<date>]. *)
Theorem start_route_validates validEmail isoDate body start wfId runId args :
  startRoute validEmail isoDate body start = Accepted wfId runId args ->
  0 < thresholdMinutes args
  /\ 0 < notifyDeltaMinutes args
  /\ (bodyThresholdMinutes body = None -> thresholdMinutes args = 30)
  /\ (bodyNotifyDeltaMinutes body = None -> notifyDeltaMinutes args = 10)
  /\ bodyDeliveryId body = Some (deliveryId args) /\ deliveryId args <> ""
  /\ bodyOrigin body = Some (origin args) /\ origin args <> ""
  /\ bodyDestination body = Some (destination args) /\ destination args <> ""
  /\ bodyRecipientEmail body = Some (recipientEmail args)
  /\ validEmail (recipientEmail args) = true
  /\ wfId = "delivery-" ++ deliveryId args ++ "-" ++ isoDate
  /\ start = Resolved runId.
Proof.
  unfold startRoute, parseStart.
  destruct (nonEmpty (bodyDeliveryId body)) as [id|] eqn:Hid; [|discriminate].
  destruct (nonEmpty (bodyOrigin body)) as [org|] eqn:Horg; [|discriminate].
  destruct (nonEmpty (bodyDestination body)) as [dst|] eqn:Hdst; [|discriminate].
  destruct (bodyRecipientEmail body) as [email|] eqn:Hemail; [|discriminate].
  destruct (positiveIntOr 30 (bodyThresholdMinutes body)) as [thr|] eqn:Hthr;
    [|discriminate].
  destruct (positiveIntOr 10 (bodyNotifyDeltaMinutes body)) as [delta|] eqn:Hdelta;
    [|discriminate].
  destruct (validEmail email) eqn:Hvalid; [|discriminate].
  destruct start as [run|err]; [|discriminate].
  intros [= <- <- <-]. cbn.
  apply nonEmpty_some in Hid as [Hid1 Hid2].
  apply nonEmpty_some in Horg as [Horg1 Horg2].
  apply nonEmpty_some in Hdst as [Hdst1 Hdst2].
  apply positiveIntOr_positive in Hthr as [Hthr1 Hthr2]; [|lia].
  apply positiveIntOr_positive in Hdelta as [Hdelta1 Hdelta2]; [|lia].
  repeat split; auto.
Qed.

(** The instance of X16 on the request of the route's test. *)
Lemma start_route_validates_witness :
  0 < 30 /\ 0 < 10.
Proof.
  destruct (start_route_validates (fun _ => true) "2025-01-31"
              (mkStartBody (Some "t1") (Some "A") (Some "B") (Some "x@y.com") None None)
              (Resolved "test-run") "delivery-t1-2025-01-31" "test-run"
              (mkMonitorArgs "t1" "A" "B" "x@y.com" 30 10) eq_refl)
    as (H1 & H2 & _).
  split; [exact H1|exact H2].
Defined.

End ApiRoutes.
